(** * sf-go-profiler: the profiler configuration builder

    A shallow embedding of the two variants of the configuration module,
    [src/profiler/config.go] (module [Profiler]) and [src/unnamed/part_000]
    (module [Part000]), and the properties of the builder interface:
    defaults, the enable operations, the output channel and the frame of
    the setters.

    Conventions.  A [time.Duration] is an [int64] count of nanoseconds and
    is a [Z] here, with the two's complement wrap-around of [int64]
    arithmetic written out ([Go.wrap64]).  A Go [int] is taken to be 64 bits
    wide.  A [[]string] is the list of its elements: the two package-level
    slices are built by composite literals (length = capacity), nothing in
    the package stores through an index, so [append] never writes into an
    array that another slice header can see; module [SliceHeap] below makes
    that argument precise on a store of backing arrays.  A buffered channel
    is its capacity and the queue of values it holds. *)

From Stdlib Require Import ZArith Lia Ascii String DecimalString DecimalZ DecimalPos.
From stdpp Require Import base strings list gmap.

Local Open Scope Z_scope.

(** ** Go primitives used by the package *)

Module Go.

(** [int64] arithmetic: results are reduced to [-2^63, 2^63). *)
Definition wrap64 (z : Z) : Z := (z + 2 ^ 63) `mod` 2 ^ 64 - 2 ^ 63.

Definition int64_mul (a b : Z) : Z := wrap64 (a * b).

(** package [time] *)
Definition Duration := Z.
Definition Nanosecond : Duration := 1.
Definition Microsecond : Duration := 1000 * Nanosecond.
Definition Millisecond : Duration := 1000 * Microsecond.
Definition Second : Duration := 1000 * Millisecond.

(** The conversion [time.Duration(i)] of an [int]. *)
Definition Duration_of_int (i : Z) : Duration := wrap64 i.

(** A buffered channel [make(chan A, n)]: capacity and queued values,
    oldest first. *)
Record chan (A : Type) := Chan { chan_cap : nat; chan_buf : list A }.
Arguments Chan {A} _ _.
Arguments chan_cap {A} _.
Arguments chan_buf {A} _.

Definition make_chan {A} (n : nat) : chan A := Chan n [].

(** [c <- x]: [None] when the buffer is full and the sender would block. *)
Definition chan_send {A} (x : A) (c : chan A) : option (chan A) :=
  if decide (length (chan_buf c) < chan_cap c)%nat
  then Some (Chan (chan_cap c) (chan_buf c ++ [x]))
  else None.

(** [<-c]: [None] when the buffer is empty and the receiver would block. *)
Definition chan_recv {A} (c : chan A) : option (A * chan A) :=
  match chan_buf c with
  | [] => None
  | x :: rest => Some (x, Chan (chan_cap c) rest)
  end.

(** Sending a batch, one value after the other. *)
Fixpoint chan_send_all {A} (xs : list A) (c : chan A) : option (chan A) :=
  match xs with
  | [] => Some c
  | x :: xs' =>
      match chan_send x c with
      | Some c' => chan_send_all xs' c'
      | None => None
      end
  end.

(** Receiving [n] values, in the order they come out. *)
Fixpoint chan_recv_n {A} (n : nat) (c : chan A) : option (list A * chan A) :=
  match n with
  | O => Some ([], c)
  | S n' =>
      match chan_recv c with
      | Some (x, c') =>
          match chan_recv_n n' c' with
          | Some (xs, c'') => Some (x :: xs, c'')
          | None => None
          end
      | None => None
      end
  end.

End Go.

(** The enabled profile types as a duplicate-free set. *)
Definition profile_set (l : list string) : gset string := list_to_set l.

(** What an enable operation does to the slice of enabled types: the type
    is appended, so it is a member afterwards and every earlier member
    still is. *)
Definition adds_type (t : string) (before after : list string) : Prop :=
  after = before ++ [t]
  ∧ t ∈ profile_set after
  ∧ profile_set before ⊆ profile_set after.

(** The output mode of the settings: profiles are either written to files
    or pushed to the agent at the target address. *)
Inductive OutputMode := toFile | toNetwork.

(** ** [src/profiler/config.go] *)

Module Profiler.

Definition cpu : string := "cpu".
Definition heap : string := "heap".
Definition block : string := "block".
Definition mutex : string := "mutex".
Definition goroutine : string := "goroutine".
Definition allocs : string := "allocs".
Definition threadcreate : string := "threadcreate".

Definition DefaultProfilesDir : string := "./profiles".
Definition DefaultProfilesAge : Go.Duration := 900 * Go.Second.
Definition DefaultAgentURL : string := "http://127.0.0.1:8586/profile".
Definition DefaultCPUProfileDuration : Go.Duration := 10 * Go.Second.
Definition DefaultProfileInterval : Go.Duration := 60 * Go.Second.

Definition allProfiles : list string :=
  [threadcreate; block; mutex; goroutine; allocs; heap; cpu].
Definition defaultProfiles : list string := [heap; cpu].

Section Config.
(** [context.CancelFunc], the type of the logging hook
    [func(format string, v ...interface{})] and [runtime.MemStats] are
    opaque to the builder. *)
Variables CancelFunc logfn MemStats : Type.
Variable defaultlogf : logfn.

Record commonData := {
  Timestamp : Z;
  Type_ : string;
  PID : Z;
  Service : string;
  GoVersion : string;
  Hostname : string
}.

Record profileData := {
  profile_common : commonData;
  Data : list Byte.byte
}.

Record metricsData := {
  metrics_common : commonData;
  NumGoroutines : Z;
  MemStats_ : MemStats
}.

Record Config := {
  duration : Go.Duration;
  interval : Go.Duration;
  profileTypes : list string;
  cancel : option CancelFunc;
  outProfile : Go.chan profileData;
  outMetrics : Go.chan metricsData;
  service : string;
  dumpToFile : bool;
  targetURL : string;
  customTarget : bool;
  logf : logfn
}.

Definition NewProfilerConfig (service : string) : Config :=
  {| service := service;
     duration := DefaultCPUProfileDuration;
     interval := DefaultProfileInterval;
     profileTypes := defaultProfiles;
     cancel := None;
     outProfile := Go.make_chan (length allProfiles + 1);
     outMetrics := Go.make_chan 1;
     dumpToFile := false;
     targetURL := DefaultAgentURL;
     customTarget := false;
     logf := defaultlogf |}.

Definition SetInterval (i : Z) (cfg : Config) : Config :=
  {| interval := Go.int64_mul (Go.Duration_of_int i) Go.Second;
     duration := duration cfg;
     profileTypes := profileTypes cfg;
     cancel := cancel cfg;
     outProfile := outProfile cfg;
     outMetrics := outMetrics cfg;
     service := service cfg;
     dumpToFile := dumpToFile cfg;
     targetURL := targetURL cfg;
     customTarget := customTarget cfg;
     logf := logf cfg |}.

Definition SetCPUProfileDuration (i : Z) (cfg : Config) : Config :=
  {| duration := Go.int64_mul (Go.Duration_of_int i) Go.Second;
     interval := interval cfg;
     profileTypes := profileTypes cfg;
     cancel := cancel cfg;
     outProfile := outProfile cfg;
     outMetrics := outMetrics cfg;
     service := service cfg;
     dumpToFile := dumpToFile cfg;
     targetURL := targetURL cfg;
     customTarget := customTarget cfg;
     logf := logf cfg |}.

(** [cfg.profileTypes = l], the assignment all the enable operations
    end in. *)
Definition assign_profileTypes (l : list string) (cfg : Config) : Config :=
  {| profileTypes := l;
     duration := duration cfg;
     interval := interval cfg;
     cancel := cancel cfg;
     outProfile := outProfile cfg;
     outMetrics := outMetrics cfg;
     service := service cfg;
     dumpToFile := dumpToFile cfg;
     targetURL := targetURL cfg;
     customTarget := customTarget cfg;
     logf := logf cfg |}.

Definition EnableBlockProfile (cfg : Config) : Config :=
  assign_profileTypes (profileTypes cfg ++ [block]) cfg.

Definition EnableMutexProfile (cfg : Config) : Config :=
  assign_profileTypes (profileTypes cfg ++ [mutex]) cfg.

Definition EnableGoRoutineProfile (cfg : Config) : Config :=
  assign_profileTypes (profileTypes cfg ++ [goroutine]) cfg.

Definition EnableThreadCreateProfile (cfg : Config) : Config :=
  assign_profileTypes (profileTypes cfg ++ [threadcreate]) cfg.

Definition EnableAllProfiles (cfg : Config) : Config :=
  assign_profileTypes allProfiles cfg.

Definition WriteProfileToFile (cfg : Config) : Config :=
  {| dumpToFile := true;
     duration := duration cfg;
     interval := interval cfg;
     profileTypes := profileTypes cfg;
     cancel := cancel cfg;
     outProfile := outProfile cfg;
     outMetrics := outMetrics cfg;
     service := service cfg;
     targetURL := targetURL cfg;
     customTarget := customTarget cfg;
     logf := logf cfg |}.

Definition SetTargetURL (url : string) (cfg : Config) : Config :=
  {| customTarget := true;
     targetURL := url;
     duration := duration cfg;
     interval := interval cfg;
     profileTypes := profileTypes cfg;
     cancel := cancel cfg;
     outProfile := outProfile cfg;
     outMetrics := outMetrics cfg;
     service := service cfg;
     dumpToFile := dumpToFile cfg;
     logf := logf cfg |}.

Definition SetLogger (f : logfn) (cfg : Config) : Config :=
  {| logf := f;
     duration := duration cfg;
     interval := interval cfg;
     profileTypes := profileTypes cfg;
     cancel := cancel cfg;
     outProfile := outProfile cfg;
     outMetrics := outMetrics cfg;
     service := service cfg;
     dumpToFile := dumpToFile cfg;
     targetURL := targetURL cfg;
     customTarget := customTarget cfg |}.

(** The output mode the flag [dumpToFile] selects. *)
Definition outputMode (cfg : Config) : OutputMode :=
  if dumpToFile cfg then toFile else toNetwork.

End Config.

Arguments NewProfilerConfig {CancelFunc logfn MemStats} defaultlogf service.
Arguments SetInterval {CancelFunc logfn MemStats} i cfg.
Arguments SetCPUProfileDuration {CancelFunc logfn MemStats} i cfg.
Arguments assign_profileTypes {CancelFunc logfn MemStats} l cfg.
Arguments EnableBlockProfile {CancelFunc logfn MemStats} cfg.
Arguments EnableMutexProfile {CancelFunc logfn MemStats} cfg.
Arguments EnableGoRoutineProfile {CancelFunc logfn MemStats} cfg.
Arguments EnableThreadCreateProfile {CancelFunc logfn MemStats} cfg.
Arguments EnableAllProfiles {CancelFunc logfn MemStats} cfg.
Arguments WriteProfileToFile {CancelFunc logfn MemStats} cfg.
Arguments SetTargetURL {CancelFunc logfn MemStats} url cfg.
Arguments SetLogger {CancelFunc logfn MemStats} f cfg.
Arguments outputMode {CancelFunc logfn MemStats} cfg.
Arguments duration {CancelFunc logfn MemStats} c.
Arguments interval {CancelFunc logfn MemStats} c.
Arguments profileTypes {CancelFunc logfn MemStats} c.
Arguments cancel {CancelFunc logfn MemStats} c.
Arguments outProfile {CancelFunc logfn MemStats} c.
Arguments outMetrics {CancelFunc logfn MemStats} c.
Arguments service {CancelFunc logfn MemStats} c.
Arguments dumpToFile {CancelFunc logfn MemStats} c.
Arguments targetURL {CancelFunc logfn MemStats} c.
Arguments customTarget {CancelFunc logfn MemStats} c.
Arguments logf {CancelFunc logfn MemStats} c.

End Profiler.

(** ** [src/unnamed/part_000] *)

Module Part000.

Definition cpu : string := "cpu".
Definition heap : string := "heap".
Definition block : string := "block".
Definition mutex : string := "mutex".
Definition goroutine : string := "goroutine".
Definition allocs : string := "allocs".
Definition threadcreate : string := "threadcreate".

Definition DefaultProfilesDir : string := "./profiles".
Definition DefaultProfilesAge : Go.Duration := 900 * Go.Second.
Definition DefaultAgentURL : string := "http://127.0.0.1:8586/profile".
Definition DefaultCPUProfileDuration : Go.Duration := 10 * Go.Second.
Definition DefaultProfileInterval : Go.Duration := 60 * Go.Second.

Definition allProfiles : list string :=
  [cpu; heap; block; mutex; goroutine; allocs; threadcreate].
Definition defaultProfiles : list string := [cpu; heap].

Section Config.
(** [pprofData], the element type of the output channel, is declared
    in a file that is not among the sources; the builder never looks
    inside it. *)
Variables CancelFunc logfn pprofData : Type.
Variable defaultlogf : logfn.

Record Config := {
  duration : Go.Duration;
  interval : Go.Duration;
  profileTypes : list string;
  cancel : option CancelFunc;
  out : Go.chan pprofData;
  service : string;
  dumpToFile : bool;
  targetURL : string;
  customTarget : bool;
  logf : logfn
}.

Definition NewProfilerConfig (service : string) : Config :=
  {| service := service;
     duration := DefaultCPUProfileDuration;
     interval := DefaultProfileInterval;
     profileTypes := defaultProfiles;
     cancel := None;
     out := Go.make_chan (length allProfiles + 1);
     dumpToFile := false;
     targetURL := DefaultAgentURL;
     customTarget := false;
     logf := defaultlogf |}.

Definition SetInterval (i : Z) (cfg : Config) : Config :=
  {| interval := Go.int64_mul (Go.Duration_of_int i) Go.Second;
     duration := duration cfg;
     profileTypes := profileTypes cfg;
     cancel := cancel cfg;
     out := out cfg;
     service := service cfg;
     dumpToFile := dumpToFile cfg;
     targetURL := targetURL cfg;
     customTarget := customTarget cfg;
     logf := logf cfg |}.

Definition SetCPUProfileDuration (i : Z) (cfg : Config) : Config :=
  {| duration := Go.int64_mul (Go.Duration_of_int i) Go.Second;
     interval := interval cfg;
     profileTypes := profileTypes cfg;
     cancel := cancel cfg;
     out := out cfg;
     service := service cfg;
     dumpToFile := dumpToFile cfg;
     targetURL := targetURL cfg;
     customTarget := customTarget cfg;
     logf := logf cfg |}.

Definition assign_profileTypes (l : list string) (cfg : Config) : Config :=
  {| profileTypes := l;
     duration := duration cfg;
     interval := interval cfg;
     cancel := cancel cfg;
     out := out cfg;
     service := service cfg;
     dumpToFile := dumpToFile cfg;
     targetURL := targetURL cfg;
     customTarget := customTarget cfg;
     logf := logf cfg |}.

Definition EnableBlockProfile (cfg : Config) : Config :=
  assign_profileTypes (profileTypes cfg ++ [block]) cfg.

Definition EnableMutexProfile (cfg : Config) : Config :=
  assign_profileTypes (profileTypes cfg ++ [mutex]) cfg.

Definition EnableGoRoutineProfile (cfg : Config) : Config :=
  assign_profileTypes (profileTypes cfg ++ [goroutine]) cfg.

Definition EnableThreadCreateProfile (cfg : Config) : Config :=
  assign_profileTypes (profileTypes cfg ++ [threadcreate]) cfg.

Definition EnableAllProfiles (cfg : Config) : Config :=
  assign_profileTypes allProfiles cfg.

Definition WriteProfileToFile (cfg : Config) : Config :=
  {| dumpToFile := true;
     duration := duration cfg;
     interval := interval cfg;
     profileTypes := profileTypes cfg;
     cancel := cancel cfg;
     out := out cfg;
     service := service cfg;
     targetURL := targetURL cfg;
     customTarget := customTarget cfg;
     logf := logf cfg |}.

Definition SetTargetURL (url : string) (cfg : Config) : Config :=
  {| customTarget := true;
     targetURL := url;
     duration := duration cfg;
     interval := interval cfg;
     profileTypes := profileTypes cfg;
     cancel := cancel cfg;
     out := out cfg;
     service := service cfg;
     dumpToFile := dumpToFile cfg;
     logf := logf cfg |}.

Definition SetLogger (f : logfn) (cfg : Config) : Config :=
  {| logf := f;
     duration := duration cfg;
     interval := interval cfg;
     profileTypes := profileTypes cfg;
     cancel := cancel cfg;
     out := out cfg;
     service := service cfg;
     dumpToFile := dumpToFile cfg;
     targetURL := targetURL cfg;
     customTarget := customTarget cfg |}.

Definition outputMode (cfg : Config) : OutputMode :=
  if dumpToFile cfg then toFile else toNetwork.

End Config.

Arguments NewProfilerConfig {CancelFunc logfn pprofData} defaultlogf service.
Arguments SetInterval {CancelFunc logfn pprofData} i cfg.
Arguments SetCPUProfileDuration {CancelFunc logfn pprofData} i cfg.
Arguments assign_profileTypes {CancelFunc logfn pprofData} l cfg.
Arguments EnableBlockProfile {CancelFunc logfn pprofData} cfg.
Arguments EnableMutexProfile {CancelFunc logfn pprofData} cfg.
Arguments EnableGoRoutineProfile {CancelFunc logfn pprofData} cfg.
Arguments EnableThreadCreateProfile {CancelFunc logfn pprofData} cfg.
Arguments EnableAllProfiles {CancelFunc logfn pprofData} cfg.
Arguments WriteProfileToFile {CancelFunc logfn pprofData} cfg.
Arguments SetTargetURL {CancelFunc logfn pprofData} url cfg.
Arguments SetLogger {CancelFunc logfn pprofData} f cfg.
Arguments outputMode {CancelFunc logfn pprofData} cfg.
Arguments duration {CancelFunc logfn pprofData} c.
Arguments interval {CancelFunc logfn pprofData} c.
Arguments profileTypes {CancelFunc logfn pprofData} c.
Arguments cancel {CancelFunc logfn pprofData} c.
Arguments out {CancelFunc logfn pprofData} c.
Arguments service {CancelFunc logfn pprofData} c.
Arguments dumpToFile {CancelFunc logfn pprofData} c.
Arguments targetURL {CancelFunc logfn pprofData} c.
Arguments customTarget {CancelFunc logfn pprofData} c.
Arguments logf {CancelFunc logfn pprofData} c.

End Part000.

(** ** Slices on a store of backing arrays

    The builder as the runtime executes it: a [[]string] is a header
    (array, length, capacity) into a store of backing arrays, [append]
    writes in place while the capacity lasts and moves to a fresh array
    otherwise, and an assignment of a slice copies the header only.  The
    package never reslices, so every header starts at index 0 of its
    array. *)

Module SliceHeap.

Record slice := Slice { s_array : nat; s_len : nat; s_cap : nat }.

(** The elements a header denotes in a store. *)
Definition contents (h : list (list string)) (s : slice) : list string :=
  take (s_len s) (default [] (h !! s_array s)).

(** A composite literal [[]string{...}]: a new array holding exactly the
    listed elements. *)
Definition literal (l : list string) (h : list (list string))
    : slice * list (list string) :=
  (Slice (length h) (length l) (length l), h ++ [l]).

(** The four operations that append one tag. *)
Inductive enable := Block | Mutex | GoRoutine | ThreadCreate.

Definition tag (e : enable) : string :=
  match e with
  | Block => Profiler.block
  | Mutex => Profiler.mutex
  | GoRoutine => Profiler.goroutine
  | ThreadCreate => Profiler.threadcreate
  end.

(** The calls of the builder that read or write [profileTypes]; [cfg] is
    the number of the configuration, in order of construction. *)
Inductive call :=
| CallNew (service : string)
| CallEnable (e : enable) (cfg : nat)
| CallEnableAll (cfg : nat).

(** The store, the two package-level variables and the [profileTypes]
    field of every configuration made so far. *)
Record world := World {
  arrays : list (list string);
  allProfiles : slice;
  defaultProfiles : slice;
  profileTypes : list slice
}.

(** Package initialisation: the two literals of the [var] block. *)
Definition init : world :=
  let '(a, h1) := literal Profiler.allProfiles [] in
  let '(d, h2) := literal Profiler.defaultProfiles h1 in
  World h2 a d [].

Section Machine.
(** The capacity the runtime picks for the new array, from the old
    capacity and the length needed. *)
Variable grow : nat → nat → nat.

Definition append (s : slice) (x : string) (h : list (list string))
    : slice * list (list string) :=
  if decide (s_len s < s_cap s)%nat then
    (Slice (s_array s) (S (s_len s)) (s_cap s),
     alter (λ a, <[s_len s := x]> a) (s_array s) h)
  else
    let c := grow (s_cap s) (S (s_len s)) in
    (Slice (length h) (S (s_len s)) c,
     h ++ [contents h s ++ x :: replicate (c - S (s_len s)) EmptyString]).

Definition step (w : world) (c : call) : world :=
  match c with
  | CallNew _ =>
      World (arrays w) (allProfiles w) (defaultProfiles w)
            (profileTypes w ++ [defaultProfiles w])
  | CallEnable e i =>
      match profileTypes w !! i with
      | Some s =>
          let '(s', h') := append s (tag e) (arrays w) in
          World h' (allProfiles w) (defaultProfiles w) (<[i := s']> (profileTypes w))
      | None => w
      end
  | CallEnableAll i =>
      World (arrays w) (allProfiles w) (defaultProfiles w)
            (<[i := allProfiles w]> (profileTypes w))
  end.

Definition run (cs : list call) : world := fold_left step cs init.

End Machine.

(** The same calls on the configurations of module [Profiler], where a
    slice is the list of its elements. *)
Section Lists.
Variables CancelFunc logfn MemStats : Type.
Variable defaultlogf : logfn.

Definition enable_op (e : enable)
    : Profiler.Config CancelFunc logfn MemStats → Profiler.Config CancelFunc logfn MemStats :=
  match e with
  | Block => Profiler.EnableBlockProfile
  | Mutex => Profiler.EnableMutexProfile
  | GoRoutine => Profiler.EnableGoRoutineProfile
  | ThreadCreate => Profiler.EnableThreadCreateProfile
  end.

Definition list_step (l : list (Profiler.Config CancelFunc logfn MemStats)) (c : call)
    : list (Profiler.Config CancelFunc logfn MemStats) :=
  match c with
  | CallNew service => l ++ [Profiler.NewProfilerConfig defaultlogf service]
  | CallEnable e i => alter (enable_op e) i l
  | CallEnableAll i => alter Profiler.EnableAllProfiles i l
  end.

Definition list_run (cs : list call) : list (Profiler.Config CancelFunc logfn MemStats) :=
  fold_left list_step cs [].

(** The invariant that relates the two: every header denotes the list of
    its configuration and lies within its array; a header with spare
    capacity is the only one on its array, and that array is not one of
    the package's two. *)
Definition inv (w : world) (cfgs : list (Profiler.Config CancelFunc logfn MemStats)) : Prop :=
  arrays w !! 0%nat = Some Profiler.allProfiles
  ∧ arrays w !! 1%nat = Some Profiler.defaultProfiles
  ∧ allProfiles w = Slice 0 7 7
  ∧ defaultProfiles w = Slice 1 2 2
  ∧ length (profileTypes w) = length cfgs
  ∧ (∀ i s c, profileTypes w !! i = Some s → cfgs !! i = Some c →
       contents (arrays w) s = Profiler.profileTypes c
       ∧ (s_len s ≤ s_cap s)%nat
       ∧ ∃ a, arrays w !! s_array s = Some a ∧ length a = s_cap s)
  ∧ (∀ i s, profileTypes w !! i = Some s → (s_len s < s_cap s)%nat →
       (2 ≤ s_array s)%nat
       ∧ ∀ j s', profileTypes w !! j = Some s' → s_array s' = s_array s → j = i).

End Lists.

Arguments inv {CancelFunc logfn MemStats} w cfgs.
Arguments enable_op {CancelFunc logfn MemStats} e cfg.
Arguments list_step {CancelFunc logfn MemStats} defaultlogf l c.
Arguments list_run {CancelFunc logfn MemStats} defaultlogf cs.

(** The growth policy of the Go runtime for small slices: double. *)
Definition grow_double (old need : nat) : nat := Nat.max need (2 * old).

End SliceHeap.

(** ** The file sink's naming convention *)

Module FileSink.

(** The verb [%d] of package [fmt]: decimal digits, with a leading minus
    sign for a negative number. *)
Definition itoa (z : Z) : string := NilZero.string_of_int (Z.to_int z).




(** Does the character occur in the string? *)
Fixpoint occurs (a : ascii) (s : string) : bool :=
  match s with
  | EmptyString => false
  | String b s' => if Ascii.eqb b a then true else occurs a s'
  end.




End FileSink.


(** ** Validity of settings and sample inputs *)

(** The constraints on the settings: a non-empty service name, a positive
    interval and a positive CPU profile duration. *)
Definition settings_valid {CancelFunc logfn MemStats : Type}
    (cfg : Profiler.Config CancelFunc logfn MemStats) : bool :=
  negb (String.eqb (Profiler.service cfg) "")
  && (0 <? Profiler.interval cfg)
  && (0 <? Profiler.duration cfg).

Module Examples.

(** Configurations of a service called api, with trivial logger and
    element types. *)
Definition cfg_api : Profiler.Config unit unit unit :=
  Profiler.NewProfilerConfig tt "api".

Definition part_api : Part000.Config unit unit unit :=
  Part000.NewProfilerConfig tt "api".

(** An artifact of process 4242 of that service. *)
Definition artifact (profileType : string) (timestamp : Z) : Profiler.profileData :=
  {| Profiler.profile_common :=
       {| Profiler.Timestamp := timestamp;
          Profiler.Type_ := profileType;
          Profiler.PID := 4242;
          Profiler.Service := "api";
          Profiler.GoVersion := "go1.13";
          Profiler.Hostname := "localhost" |};
     Profiler.Data := [] |}.


(** One artifact for each type of the catalog. *)
Definition full_round (timestamp : Z) : list Profiler.profileData :=
  (λ t, artifact t timestamp) <$> Profiler.allProfiles.

End Examples.

(** ** Sequences of builder calls

    A program that configures a profiler makes a sequence of method calls
    on one [*Config].  [op] names the ten methods of the builder with
    their arguments; [call] dispatches to the method, [calls] makes the
    calls of a list from left to right. *)

Module Calls.

Inductive op (logfn : Type) : Type :=
| OpSetInterval (i : Z)
| OpSetCPUProfileDuration (i : Z)
| OpEnableBlockProfile
| OpEnableMutexProfile
| OpEnableGoRoutineProfile
| OpEnableThreadCreateProfile
| OpEnableAllProfiles
| OpWriteProfileToFile
| OpSetTargetURL (url : string)
| OpSetLogger (f : logfn).

Arguments OpSetInterval {logfn} i.
Arguments OpSetCPUProfileDuration {logfn} i.
Arguments OpEnableBlockProfile {logfn}.
Arguments OpEnableMutexProfile {logfn}.
Arguments OpEnableGoRoutineProfile {logfn}.
Arguments OpEnableThreadCreateProfile {logfn}.
Arguments OpEnableAllProfiles {logfn}.
Arguments OpWriteProfileToFile {logfn}.
Arguments OpSetTargetURL {logfn} url.
Arguments OpSetLogger {logfn} f.

(** The field (or pair of fields) a method assigns. *)
Inductive field := FInterval | FDuration | FProfileTypes | FDumpToFile | FTarget | FLogf.

Definition field_of {logfn} (o : op logfn) : field :=
  match o with
  | OpSetInterval _ => FInterval
  | OpSetCPUProfileDuration _ => FDuration
  | OpEnableBlockProfile | OpEnableMutexProfile | OpEnableGoRoutineProfile
  | OpEnableThreadCreateProfile | OpEnableAllProfiles => FProfileTypes
  | OpWriteProfileToFile => FDumpToFile
  | OpSetTargetURL _ => FTarget
  | OpSetLogger _ => FLogf
  end.

(** What a call assigns to [interval], [duration], [targetURL] and [logf],
    if it assigns them at all. *)
Definition interval_set {logfn} (o : op logfn) : option Go.Duration :=
  match o with
  | OpSetInterval i => Some (Go.int64_mul (Go.Duration_of_int i) Go.Second)
  | _ => None
  end.

Definition duration_set {logfn} (o : op logfn) : option Go.Duration :=
  match o with
  | OpSetCPUProfileDuration i => Some (Go.int64_mul (Go.Duration_of_int i) Go.Second)
  | _ => None
  end.

Definition url_set {logfn} (o : op logfn) : option string :=
  match o with
  | OpSetTargetURL url => Some url
  | _ => None
  end.

Definition logger_set {logfn} (o : op logfn) : option logfn :=
  match o with
  | OpSetLogger f => Some f
  | _ => None
  end.

(** The tag one of the four single enable calls appends. *)
Definition enable_tag {logfn} (o : op logfn) : option string :=
  match o with
  | OpEnableBlockProfile => Some Profiler.block
  | OpEnableMutexProfile => Some Profiler.mutex
  | OpEnableGoRoutineProfile => Some Profiler.goroutine
  | OpEnableThreadCreateProfile => Some Profiler.threadcreate
  | _ => None
  end.

Definition is_enable_all {logfn} (o : op logfn) : bool :=
  match o with OpEnableAllProfiles => true | _ => false end.

Definition is_write_to_file {logfn} (o : op logfn) : bool :=
  match o with OpWriteProfileToFile => true | _ => false end.

Definition is_set_target {logfn} (o : op logfn) : bool :=
  match o with OpSetTargetURL _ => true | _ => false end.

Section Run.
Variables CancelFunc logfn MemStats pprofData : Type.

(** [src/profiler/config.go] *)
Definition call (o : op logfn) (cfg : Profiler.Config CancelFunc logfn MemStats)
    : Profiler.Config CancelFunc logfn MemStats :=
  match o with
  | OpSetInterval i => Profiler.SetInterval i cfg
  | OpSetCPUProfileDuration i => Profiler.SetCPUProfileDuration i cfg
  | OpEnableBlockProfile => Profiler.EnableBlockProfile cfg
  | OpEnableMutexProfile => Profiler.EnableMutexProfile cfg
  | OpEnableGoRoutineProfile => Profiler.EnableGoRoutineProfile cfg
  | OpEnableThreadCreateProfile => Profiler.EnableThreadCreateProfile cfg
  | OpEnableAllProfiles => Profiler.EnableAllProfiles cfg
  | OpWriteProfileToFile => Profiler.WriteProfileToFile cfg
  | OpSetTargetURL url => Profiler.SetTargetURL url cfg
  | OpSetLogger f => Profiler.SetLogger f cfg
  end.

Definition calls (os : list (op logfn)) (cfg : Profiler.Config CancelFunc logfn MemStats)
    : Profiler.Config CancelFunc logfn MemStats :=
  fold_left (λ c o, call o c) os cfg.

(** [src/unnamed/part_000] *)
Definition call000 (o : op logfn) (cfg : Part000.Config CancelFunc logfn pprofData)
    : Part000.Config CancelFunc logfn pprofData :=
  match o with
  | OpSetInterval i => Part000.SetInterval i cfg
  | OpSetCPUProfileDuration i => Part000.SetCPUProfileDuration i cfg
  | OpEnableBlockProfile => Part000.EnableBlockProfile cfg
  | OpEnableMutexProfile => Part000.EnableMutexProfile cfg
  | OpEnableGoRoutineProfile => Part000.EnableGoRoutineProfile cfg
  | OpEnableThreadCreateProfile => Part000.EnableThreadCreateProfile cfg
  | OpEnableAllProfiles => Part000.EnableAllProfiles cfg
  | OpWriteProfileToFile => Part000.WriteProfileToFile cfg
  | OpSetTargetURL url => Part000.SetTargetURL url cfg
  | OpSetLogger f => Part000.SetLogger f cfg
  end.

Definition calls000 (os : list (op logfn)) (cfg : Part000.Config CancelFunc logfn pprofData)
    : Part000.Config CancelFunc logfn pprofData :=
  fold_left (λ c o, call000 o c) os cfg.

End Run.

Arguments call {CancelFunc logfn MemStats} o cfg.
Arguments calls {CancelFunc logfn MemStats} os cfg.
Arguments call000 {CancelFunc logfn pprofData} o cfg.
Arguments calls000 {CancelFunc logfn pprofData} os cfg.

End Calls.

(** * Properties *)

(** ** [int64] arithmetic and durations *)

Lemma wrap64_range z : - 2 ^ 63 ≤ Go.wrap64 z < 2 ^ 63.
Proof. unfold Go.wrap64. pose proof (Z.mod_pos_bound (z + 2 ^ 63) (2 ^ 64)). lia. Qed.

Lemma wrap64_id z : - 2 ^ 63 ≤ z < 2 ^ 63 → Go.wrap64 z = z.
Proof. intros Hz. unfold Go.wrap64. rewrite Z.mod_small; lia. Qed.

Lemma Second_ns : Go.Second = 1000000000.
Proof. reflexivity. Qed.

(** Whole seconds that fit an [int64] count of nanoseconds. *)
Lemma seconds_exact i :
  -9223372036 ≤ i ≤ 9223372036 →
  Go.int64_mul (Go.Duration_of_int i) Go.Second = i * 1000000000.
Proof.
  intros Hi. unfold Go.int64_mul, Go.Duration_of_int.
  rewrite (wrap64_id i) by lia. rewrite Second_ns. apply wrap64_id. lia.
Qed.

(** Beyond that range the product wraps: [2^55] seconds is no time at all. *)
Example seconds_wrap :
  Go.int64_mul (Go.Duration_of_int (2 ^ 55)) Go.Second = 0.
Proof. reflexivity. Qed.

(** ** Buffered channels *)

Section ChanFacts.
Context {A : Type}.
Implicit Types (c : Go.chan A) (xs : list A).

Lemma chan_send_all_fits xs c :
  (length (Go.chan_buf c) + length xs ≤ Go.chan_cap c)%nat →
  Go.chan_send_all xs c = Some (Go.Chan (Go.chan_cap c) (Go.chan_buf c ++ xs)).
Proof.
  revert c. induction xs as [|x xs IH]; intros [n buf]; simpl; intros Hfit.
  - by rewrite app_nil_r.
  - unfold Go.chan_send; simpl. destruct (decide _) as [_|Hfull]; [|lia].
    rewrite IH; simpl; [|rewrite length_app; simpl; lia].
    by rewrite <- app_assoc.
Qed.

Lemma chan_send_full x c :
  length (Go.chan_buf c) = Go.chan_cap c → Go.chan_send x c = None.
Proof. intros Hfull. unfold Go.chan_send. destruct (decide _); [lia|done]. Qed.

Lemma chan_recv_n_all n xs :
  Go.chan_recv_n (length xs) (Go.Chan n xs) = Some (xs, Go.Chan n []).
Proof.
  induction xs as [|x xs IH]; simpl; [done|].
  unfold Go.chan_recv; simpl. by rewrite IH.
Qed.

(** What goes into an empty channel within its capacity comes out in the
    order it went in. *)
Lemma chan_fifo n xs :
  (length xs ≤ n)%nat →
  Go.chan_send_all xs (Go.make_chan n) ≫= Go.chan_recv_n (length xs)
  = Some (xs, Go.make_chan n).
Proof.
  intros Hn. rewrite chan_send_all_fits by (simpl; lia). simpl.
  apply chan_recv_n_all.
Qed.
End ChanFacts.

(** ** The profile-type catalog *)

Lemma Profiler_catalog_set :
  profile_set Profiler.allProfiles
  = {[ "cpu"; "heap"; "block"; "mutex"; "goroutine"; "allocs"; "threadcreate" ]}.
Proof. unfold profile_set, Profiler.allProfiles. simpl. set_solver. Qed.

Lemma Part000_catalog_set :
  profile_set Part000.allProfiles
  = {[ "cpu"; "heap"; "block"; "mutex"; "goroutine"; "allocs"; "threadcreate" ]}.
Proof. unfold profile_set, Part000.allProfiles. simpl. set_solver. Qed.

Lemma Profiler_catalog_NoDup : NoDup Profiler.allProfiles.
Proof. by apply (bool_decide_unpack _). Qed.

Lemma Part000_catalog_NoDup : NoDup Part000.allProfiles.
Proof. by apply (bool_decide_unpack _). Qed.

Lemma Profiler_defaults_set :
  profile_set Profiler.defaultProfiles = {[ "cpu"; "heap" ]}.
Proof. unfold profile_set, Profiler.defaultProfiles. simpl. set_solver. Qed.

Lemma Part000_defaults_set :
  profile_set Part000.defaultProfiles = {[ "cpu"; "heap" ]}.
Proof. unfold profile_set, Part000.defaultProfiles. simpl. set_solver. Qed.

Lemma profile_set_snoc l t : profile_set (l ++ [t]) = profile_set l ∪ {[ t ]}.
Proof.
  unfold profile_set. rewrite list_to_set_app_L. simpl.
  by rewrite (right_id_L ∅ (∪)).
Qed.

Lemma profile_set_snoc_twice l t :
  profile_set ((l ++ [t]) ++ [t]) = profile_set (l ++ [t]).
Proof.
  rewrite !profile_set_snoc.
  by rewrite <- (assoc_L (∪)), (idemp_L (∪)).
Qed.

(** The slice itself does grow with every call: the duplicates are there
    until a reader filters them. *)
Lemma snoc_twice_longer (l : list string) t :
  length ((l ++ [t]) ++ [t]) = S (length (l ++ [t])).
Proof. rewrite !length_app. simpl. lia. Qed.

Lemma snoc_adds_type l t : adds_type t l (l ++ [t]).
Proof.
  split; [done|]. rewrite profile_set_snoc.
  split; [apply elem_of_union_r, elem_of_singleton_2; done | apply union_subseteq_l].
Qed.

(** ** The builder *)

Section Builder.
Context {CancelFunc logfn MemStats pprofData : Type} (defaultlogf : logfn).

Abbreviation ConfigA := (Profiler.Config CancelFunc logfn MemStats).
Abbreviation ConfigB := (Part000.Config CancelFunc logfn pprofData).
Abbreviation NewA := (Profiler.NewProfilerConfig (CancelFunc := CancelFunc)
                    (MemStats := MemStats) defaultlogf).
Abbreviation NewB := (Part000.NewProfilerConfig (CancelFunc := CancelFunc)
                    (pprofData := pprofData) defaultlogf).

(** C1 (as amended).  For every service name the fresh configuration of
    either variant has interval 60 s, CPU profile duration 10 s, enabled
    set {cpu, heap} and target address http://127.0.0.1:8586/profile, the
    retention age of the package is 900 s, and the output mode is the
    network one: [dumpToFile] and [customTarget] are both false. *)
Theorem C1_defaults (s : string) :
  (Profiler.service (NewA s) = s
   ∧ Profiler.interval (NewA s) = 60 * Go.Second
   ∧ Profiler.duration (NewA s) = 10 * Go.Second
   ∧ profile_set (Profiler.profileTypes (NewA s)) = {[ "cpu"; "heap" ]}
   ∧ Profiler.outputMode (NewA s) = toNetwork
   ∧ Profiler.dumpToFile (NewA s) = false
   ∧ Profiler.customTarget (NewA s) = false
   ∧ Profiler.DefaultProfilesAge = 900 * Go.Second
   ∧ Profiler.targetURL (NewA s) = "http://127.0.0.1:8586/profile")
  ∧
  (Part000.service (NewB s) = s
   ∧ Part000.interval (NewB s) = 60 * Go.Second
   ∧ Part000.duration (NewB s) = 10 * Go.Second
   ∧ profile_set (Part000.profileTypes (NewB s)) = {[ "cpu"; "heap" ]}
   ∧ Part000.outputMode (NewB s) = toNetwork
   ∧ Part000.dumpToFile (NewB s) = false
   ∧ Part000.customTarget (NewB s) = false
   ∧ Part000.DefaultProfilesAge = 900 * Go.Second
   ∧ Part000.targetURL (NewB s) = "http://127.0.0.1:8586/profile").
Proof.
  split.
  - split_and!; first [apply Profiler_defaults_set | reflexivity].
  - split_and!; first [apply Part000_defaults_set | reflexivity].
Qed.

(** C2.  Calling one of the four enable operations twice leaves the
    enabled profile set, read as a duplicate-free set, equal to the set
    after calling it once, in either variant. *)
Theorem C2_enable_twice (a : ConfigA) (b : ConfigB) :
  (profile_set (Profiler.profileTypes (Profiler.EnableBlockProfile (Profiler.EnableBlockProfile a)))
   = profile_set (Profiler.profileTypes (Profiler.EnableBlockProfile a))
   ∧ profile_set (Profiler.profileTypes (Profiler.EnableMutexProfile (Profiler.EnableMutexProfile a)))
   = profile_set (Profiler.profileTypes (Profiler.EnableMutexProfile a))
   ∧ profile_set (Profiler.profileTypes (Profiler.EnableGoRoutineProfile (Profiler.EnableGoRoutineProfile a)))
   = profile_set (Profiler.profileTypes (Profiler.EnableGoRoutineProfile a))
   ∧ profile_set (Profiler.profileTypes (Profiler.EnableThreadCreateProfile (Profiler.EnableThreadCreateProfile a)))
   = profile_set (Profiler.profileTypes (Profiler.EnableThreadCreateProfile a)))
  ∧
  (profile_set (Part000.profileTypes (Part000.EnableBlockProfile (Part000.EnableBlockProfile b)))
   = profile_set (Part000.profileTypes (Part000.EnableBlockProfile b))
   ∧ profile_set (Part000.profileTypes (Part000.EnableMutexProfile (Part000.EnableMutexProfile b)))
   = profile_set (Part000.profileTypes (Part000.EnableMutexProfile b))
   ∧ profile_set (Part000.profileTypes (Part000.EnableGoRoutineProfile (Part000.EnableGoRoutineProfile b)))
   = profile_set (Part000.profileTypes (Part000.EnableGoRoutineProfile b))
   ∧ profile_set (Part000.profileTypes (Part000.EnableThreadCreateProfile (Part000.EnableThreadCreateProfile b)))
   = profile_set (Part000.profileTypes (Part000.EnableThreadCreateProfile b))).
Proof. repeat split; apply profile_set_snoc_twice. Qed.

(** C3 (as amended).  The builder validates nothing and has no error
    result: [NewProfilerConfig] stores the service name it is given, the
    empty one included, and [SetInterval i] and [SetCPUProfileDuration i]
    store [i] seconds for every [i] whose nanosecond count fits an [int64],
    so the stored duration is positive exactly when [i] is. *)
Theorem C3_no_validation (s : string) (i : Z) (a : ConfigA) (b : ConfigB) :
  Profiler.service (NewA s) = s
  ∧ Part000.service (NewB s) = s
  ∧ (-9223372036 ≤ i ≤ 9223372036 →
     Profiler.interval (Profiler.SetInterval i a) = i * Go.Second
     ∧ Profiler.duration (Profiler.SetCPUProfileDuration i a) = i * Go.Second
     ∧ Part000.interval (Part000.SetInterval i b) = i * Go.Second
     ∧ Part000.duration (Part000.SetCPUProfileDuration i b) = i * Go.Second
     ∧ (0 < Profiler.interval (Profiler.SetInterval i a) ↔ 0 < i)
     ∧ (0 < Profiler.duration (Profiler.SetCPUProfileDuration i a) ↔ 0 < i)
     ∧ (0 < Part000.interval (Part000.SetInterval i b) ↔ 0 < i)
     ∧ (0 < Part000.duration (Part000.SetCPUProfileDuration i b) ↔ 0 < i)).
Proof.
  split; [reflexivity|]. split; [reflexivity|]. intros Hi.
  cbn [Profiler.interval Profiler.SetInterval Profiler.duration
       Profiler.SetCPUProfileDuration Part000.interval Part000.SetInterval
       Part000.duration Part000.SetCPUProfileDuration].
  rewrite (seconds_exact i Hi), Second_ns. lia.
Qed.

(** C4.  After [EnableAllProfiles] the enabled set is the catalog of the
    seven profile types, whatever was enabled before, in either variant;
    the slice holds each of the seven once. *)
Theorem C4_enable_all (a : ConfigA) (b : ConfigB) :
  (profile_set (Profiler.profileTypes (Profiler.EnableAllProfiles a))
   = {[ "cpu"; "heap"; "block"; "mutex"; "goroutine"; "allocs"; "threadcreate" ]}
   ∧ NoDup (Profiler.profileTypes (Profiler.EnableAllProfiles a))
   ∧ length (Profiler.profileTypes (Profiler.EnableAllProfiles a)) = 7%nat)
  ∧
  (profile_set (Part000.profileTypes (Part000.EnableAllProfiles b))
   = {[ "cpu"; "heap"; "block"; "mutex"; "goroutine"; "allocs"; "threadcreate" ]}
   ∧ NoDup (Part000.profileTypes (Part000.EnableAllProfiles b))
   ∧ length (Part000.profileTypes (Part000.EnableAllProfiles b)) = 7%nat).
Proof.
  split; (split; [|split]); simpl.
  - apply Profiler_catalog_set.
  - apply Profiler_catalog_NoDup.
  - reflexivity.
  - apply Part000_catalog_set.
  - apply Part000_catalog_NoDup.
  - reflexivity.
Qed.

(** C5.  [EnableAllProfiles] is idempotent: the second call changes
    nothing, so the enabled set after two calls is the set after one. *)
Theorem C5_enable_all_idempotent (a : ConfigA) (b : ConfigB) :
  Profiler.EnableAllProfiles (Profiler.EnableAllProfiles a) = Profiler.EnableAllProfiles a
  ∧ profile_set (Profiler.profileTypes (Profiler.EnableAllProfiles (Profiler.EnableAllProfiles a)))
    = profile_set (Profiler.profileTypes (Profiler.EnableAllProfiles a))
  ∧ Part000.EnableAllProfiles (Part000.EnableAllProfiles b) = Part000.EnableAllProfiles b
  ∧ profile_set (Part000.profileTypes (Part000.EnableAllProfiles (Part000.EnableAllProfiles b)))
    = profile_set (Part000.profileTypes (Part000.EnableAllProfiles b)).
Proof. split_and!; reflexivity. Qed.

(** C6.  The output channel made at construction has capacity
    [len(allProfiles) + 1 = 8] and starts empty; a batch of at most eight
    artifacts, so also one artifact for each of the seven catalog types, is
    sent without blocking and is received in the order it was sent; with
    eight artifacts queued the next send would block. *)
Theorem C6_output_channel (s : string)
    (xs : list (Profiler.profileData)) (x : Profiler.profileData)
    (ys : list pprofData) (y : pprofData) :
  (Go.chan_cap (Profiler.outProfile (NewA s)) = (length Profiler.allProfiles + 1)%nat
   ∧ Go.chan_cap (Profiler.outProfile (NewA s)) = 8%nat
   ∧ Go.chan_buf (Profiler.outProfile (NewA s)) = []
   ∧ ((length xs ≤ 8)%nat →
      Go.chan_send_all xs (Profiler.outProfile (NewA s)) = Some (Go.Chan 8 xs)
      ∧ Go.chan_send_all xs (Profiler.outProfile (NewA s)) ≫= Go.chan_recv_n (length xs)
        = Some (xs, Profiler.outProfile (NewA s)))
   ∧ (length xs = 8%nat →
      Go.chan_send_all xs (Profiler.outProfile (NewA s)) ≫= Go.chan_send x = None))
  ∧
  (Go.chan_cap (Part000.out (NewB s)) = (length Part000.allProfiles + 1)%nat
   ∧ Go.chan_cap (Part000.out (NewB s)) = 8%nat
   ∧ Go.chan_buf (Part000.out (NewB s)) = []
   ∧ ((length ys ≤ 8)%nat →
      Go.chan_send_all ys (Part000.out (NewB s)) = Some (Go.Chan 8 ys)
      ∧ Go.chan_send_all ys (Part000.out (NewB s)) ≫= Go.chan_recv_n (length ys)
        = Some (ys, Part000.out (NewB s)))
   ∧ (length ys = 8%nat →
      Go.chan_send_all ys (Part000.out (NewB s)) ≫= Go.chan_send y = None)).
Proof.
  split; (split_and!; [reflexivity | reflexivity | reflexivity | intros Hn | intros Hn]).
  - split; [by rewrite chan_send_all_fits by (simpl; lia) | by apply (chan_fifo 8)].
  - rewrite chan_send_all_fits by (simpl; lia). simpl. by apply chan_send_full.
  - split; [by rewrite chan_send_all_fits by (simpl; lia) | by apply (chan_fifo 8)].
  - rewrite chan_send_all_fits by (simpl; lia). simpl. by apply chan_send_full.
Qed.

(** C7.  Each enable operation appends its profile type to the slice of
    enabled types: the type is enabled afterwards, and every type enabled
    before the call is still enabled after it. *)
Theorem C7_enable_appends (a : ConfigA) (b : ConfigB) :
  (adds_type "block" (Profiler.profileTypes a)
     (Profiler.profileTypes (Profiler.EnableBlockProfile a))
   ∧ adds_type "mutex" (Profiler.profileTypes a)
       (Profiler.profileTypes (Profiler.EnableMutexProfile a))
   ∧ adds_type "goroutine" (Profiler.profileTypes a)
       (Profiler.profileTypes (Profiler.EnableGoRoutineProfile a))
   ∧ adds_type "threadcreate" (Profiler.profileTypes a)
       (Profiler.profileTypes (Profiler.EnableThreadCreateProfile a)))
  ∧
  (adds_type "block" (Part000.profileTypes b)
     (Part000.profileTypes (Part000.EnableBlockProfile b))
   ∧ adds_type "mutex" (Part000.profileTypes b)
       (Part000.profileTypes (Part000.EnableMutexProfile b))
   ∧ adds_type "goroutine" (Part000.profileTypes b)
       (Part000.profileTypes (Part000.EnableGoRoutineProfile b))
   ∧ adds_type "threadcreate" (Part000.profileTypes b)
       (Part000.profileTypes (Part000.EnableThreadCreateProfile b))).
Proof. split_and!; apply snoc_adds_type. Qed.

(** C9.  [SetTargetURL u] sets the target URL to [u] and marks the target
    as custom, and [WriteProfileToFile] sets the file-output flag; each
    leaves every other field of the configuration as it was. *)
Theorem C9_setters_frame (u : string) (a : ConfigA) (b : ConfigB) :
  (Profiler.targetURL (Profiler.SetTargetURL u a) = u
   ∧ Profiler.customTarget (Profiler.SetTargetURL u a) = true
   ∧ Profiler.service (Profiler.SetTargetURL u a) = Profiler.service a
   ∧ Profiler.interval (Profiler.SetTargetURL u a) = Profiler.interval a
   ∧ Profiler.duration (Profiler.SetTargetURL u a) = Profiler.duration a
   ∧ Profiler.profileTypes (Profiler.SetTargetURL u a) = Profiler.profileTypes a
   ∧ Profiler.dumpToFile (Profiler.SetTargetURL u a) = Profiler.dumpToFile a
   ∧ Profiler.logf (Profiler.SetTargetURL u a) = Profiler.logf a
   ∧ Profiler.cancel (Profiler.SetTargetURL u a) = Profiler.cancel a
   ∧ Profiler.outProfile (Profiler.SetTargetURL u a) = Profiler.outProfile a
   ∧ Profiler.outMetrics (Profiler.SetTargetURL u a) = Profiler.outMetrics a)
  ∧
  (Profiler.dumpToFile (Profiler.WriteProfileToFile a) = true
   ∧ Profiler.targetURL (Profiler.WriteProfileToFile a) = Profiler.targetURL a
   ∧ Profiler.customTarget (Profiler.WriteProfileToFile a) = Profiler.customTarget a
   ∧ Profiler.service (Profiler.WriteProfileToFile a) = Profiler.service a
   ∧ Profiler.interval (Profiler.WriteProfileToFile a) = Profiler.interval a
   ∧ Profiler.duration (Profiler.WriteProfileToFile a) = Profiler.duration a
   ∧ Profiler.profileTypes (Profiler.WriteProfileToFile a) = Profiler.profileTypes a
   ∧ Profiler.logf (Profiler.WriteProfileToFile a) = Profiler.logf a
   ∧ Profiler.cancel (Profiler.WriteProfileToFile a) = Profiler.cancel a
   ∧ Profiler.outProfile (Profiler.WriteProfileToFile a) = Profiler.outProfile a
   ∧ Profiler.outMetrics (Profiler.WriteProfileToFile a) = Profiler.outMetrics a)
  ∧
  (Part000.targetURL (Part000.SetTargetURL u b) = u
   ∧ Part000.customTarget (Part000.SetTargetURL u b) = true
   ∧ Part000.service (Part000.SetTargetURL u b) = Part000.service b
   ∧ Part000.interval (Part000.SetTargetURL u b) = Part000.interval b
   ∧ Part000.duration (Part000.SetTargetURL u b) = Part000.duration b
   ∧ Part000.profileTypes (Part000.SetTargetURL u b) = Part000.profileTypes b
   ∧ Part000.dumpToFile (Part000.SetTargetURL u b) = Part000.dumpToFile b
   ∧ Part000.logf (Part000.SetTargetURL u b) = Part000.logf b
   ∧ Part000.cancel (Part000.SetTargetURL u b) = Part000.cancel b
   ∧ Part000.out (Part000.SetTargetURL u b) = Part000.out b)
  ∧
  (Part000.dumpToFile (Part000.WriteProfileToFile b) = true
   ∧ Part000.targetURL (Part000.WriteProfileToFile b) = Part000.targetURL b
   ∧ Part000.customTarget (Part000.WriteProfileToFile b) = Part000.customTarget b
   ∧ Part000.service (Part000.WriteProfileToFile b) = Part000.service b
   ∧ Part000.interval (Part000.WriteProfileToFile b) = Part000.interval b
   ∧ Part000.duration (Part000.WriteProfileToFile b) = Part000.duration b
   ∧ Part000.profileTypes (Part000.WriteProfileToFile b) = Part000.profileTypes b
   ∧ Part000.logf (Part000.WriteProfileToFile b) = Part000.logf b
   ∧ Part000.cancel (Part000.WriteProfileToFile b) = Part000.cancel b
   ∧ Part000.out (Part000.WriteProfileToFile b) = Part000.out b).
Proof. split_and!; reflexivity. Qed.

(** C10.  The two variants agree on the builder interface they share:
    for every service name the fresh configurations have the same service,
    interval, CPU duration, target URL, file-output flag and custom-target
    flag, the same output-channel capacity, and the same default enabled
    set {cpu, heap}; [EnableAllProfiles] yields the same seven-type catalog
    as a set in both; the two catalogs (and the two default slices) list
    the same types in different orders. *)
Theorem C10_variants_agree (s : string) (a : ConfigA) (b : ConfigB) :
  Profiler.service (NewA s) = Part000.service (NewB s)
  ∧ Profiler.interval (NewA s) = Part000.interval (NewB s)
  ∧ Profiler.duration (NewA s) = Part000.duration (NewB s)
  ∧ Profiler.targetURL (NewA s) = Part000.targetURL (NewB s)
  ∧ Profiler.dumpToFile (NewA s) = Part000.dumpToFile (NewB s)
  ∧ Profiler.customTarget (NewA s) = Part000.customTarget (NewB s)
  ∧ Go.chan_cap (Profiler.outProfile (NewA s)) = Go.chan_cap (Part000.out (NewB s))
  ∧ profile_set (Profiler.profileTypes (NewA s))
    = profile_set (Part000.profileTypes (NewB s))
  ∧ profile_set (Profiler.profileTypes (NewA s)) = {[ "cpu"; "heap" ]}
  ∧ profile_set (Profiler.profileTypes (Profiler.EnableAllProfiles a))
    = profile_set (Part000.profileTypes (Part000.EnableAllProfiles b))
  ∧ profile_set (Profiler.profileTypes (Profiler.EnableAllProfiles a))
    = {[ "cpu"; "heap"; "block"; "mutex"; "goroutine"; "allocs"; "threadcreate" ]}
  ∧ Profiler.allProfiles ≡ₚ Part000.allProfiles
  ∧ Profiler.allProfiles ≠ Part000.allProfiles
  ∧ Profiler.defaultProfiles ≡ₚ Part000.defaultProfiles
  ∧ Profiler.defaultProfiles ≠ Part000.defaultProfiles.
Proof.
  split_and!; try reflexivity; try discriminate.
  - apply NoDup_Permutation;
      [apply Profiler_catalog_NoDup | apply Part000_catalog_NoDup |].
    intros t. rewrite <- !(elem_of_list_to_set (C := gset string)).
    fold (profile_set Profiler.allProfiles) (profile_set Part000.allProfiles).
    by rewrite Profiler_catalog_set, Part000_catalog_set.
  - apply Permutation_swap.
Qed.

End Builder.

(** ** File names *)

Section FileNames.
Import FileSink.

Lemma occurs_app a s1 s2 : occurs a (s1 +:+ s2) = occurs a s1 || occurs a s2.
Proof. induction s1 as [|b s1 IH]; simpl; [done|]. by destruct (Ascii.eqb b a). Qed.





Lemma digits_no_dot d : occurs "." (NilEmpty.string_of_uint d) = false.
Proof. induction d; simpl; done. Qed.


Lemma itoa_no_dot z : occurs "." (itoa z) = false.
Proof.
  unfold itoa. destruct (Z.to_int z) as [d|d]; simpl;
    destruct d; simpl; auto using digits_no_dot.
Qed.






End FileNames.




(** ** The list view of a slice is sound

    Whatever calls are made on whatever number of configurations, the
    elements of every [profileTypes] header in the store are the list the
    module [Profiler] computes, and the two package-level slices still hold
    their literals. *)

Section SliceHeapFacts.
Import SliceHeap.
Context {CancelFunc logfn MemStats : Type} (defaultlogf : logfn).
Variable grow : nat → nat → nat.
Hypothesis grow_fits : ∀ old need, (need ≤ grow old need)%nat.
Implicit Types (w : world) (cfgs : list (Profiler.Config CancelFunc logfn MemStats)).

Lemma inv_init : inv (CancelFunc := CancelFunc) (logfn := logfn) (MemStats := MemStats) init [].
Proof.
  unfold inv, init; simpl. split_and!; try done.
Qed.

Lemma enable_op_profileTypes e (c : Profiler.Config CancelFunc logfn MemStats) :
  Profiler.profileTypes (enable_op e c) = Profiler.profileTypes c ++ [tag e].
Proof. by destruct e. Qed.

Lemma inv_new w cfgs service :
  inv w cfgs → inv (step grow w (CallNew service)) (list_step defaultlogf cfgs (CallNew service)).
Proof.
  intros (H0 & H1 & Ha & Hd & Hlen & Hrel & Hown).
  unfold inv; simpl. split_and!; try done.
  - rewrite !length_app. simpl. lia.
  - intros i s c Hs Hc.
    apply lookup_app_Some in Hs as [Hs|[Hi Hs]];
      apply lookup_app_Some in Hc as [Hc|[Hi' Hc]].
    + eauto.
    + apply lookup_lt_Some in Hs. lia.
    + apply lookup_lt_Some in Hc. lia.
    + apply list_lookup_singleton_Some in Hs as [_ <-].
      apply list_lookup_singleton_Some in Hc as [_ <-].
      rewrite Hd. unfold contents. simpl. rewrite H1. simpl.
      split; [done|]. split; [lia|]. by exists Profiler.defaultProfiles.
  - intros i s Hs Hspare.
    apply lookup_app_Some in Hs as [Hs|[Hi Hs]].
    + destruct (Hown i s Hs Hspare) as [Hge Huniq]. split; [done|].
      intros j s' Hs' Heq.
      apply lookup_app_Some in Hs' as [Hs'|[Hj Hs']]; [eauto|].
      apply list_lookup_singleton_Some in Hs' as [_ <-].
      rewrite Hd in Heq. simpl in Heq. lia.
    + apply list_lookup_singleton_Some in Hs as [_ <-].
      rewrite Hd in Hspare. simpl in Hspare. lia.
Qed.

Lemma inv_enable_all w cfgs i :
  inv w cfgs → inv (step grow w (CallEnableAll i)) (list_step defaultlogf cfgs (CallEnableAll i)).
Proof.
  intros (H0 & H1 & Ha & Hd & Hlen & Hrel & Hown).
  unfold inv; simpl. split_and!; try done.
  - by rewrite length_insert, length_alter.
  - intros j s c Hs Hc. destruct (decide (i = j)) as [<-|Hne].
    + apply list_lookup_insert_Some in Hs as [(_ & <- & _)|[? _]]; [|done].
      rewrite list_lookup_alter_eq in Hc.
      destruct (cfgs !! i) as [c0|]; simplify_eq/=.
      rewrite Ha. unfold contents. simpl. rewrite H0. simpl.
      split; [done|]. split; [lia|]. by exists Profiler.allProfiles.
    + rewrite list_lookup_insert_ne in Hs by done.
      rewrite list_lookup_alter_ne in Hc by done. eauto.
  - intros j s Hs Hspare. destruct (decide (i = j)) as [<-|Hne].
    + apply list_lookup_insert_Some in Hs as [(_ & <- & _)|[? _]]; [|done].
      rewrite Ha in Hspare. simpl in Hspare. lia.
    + rewrite list_lookup_insert_ne in Hs by done.
      destruct (Hown j s Hs Hspare) as [Hge Huniq]. split; [done|].
      intros k s' Hs' Heq. destruct (decide (i = k)) as [<-|Hne'].
      * apply list_lookup_insert_Some in Hs' as [(_ & <- & _)|[? _]]; [|done].
        rewrite Ha in Heq. simpl in Heq. lia.
      * rewrite list_lookup_insert_ne in Hs' by done. eauto.
Qed.

Lemma alter_absent {A} (f : A → A) (l : list A) i : l !! i = None → alter f i l = l.
Proof.
  intros Hi. apply list_eq. intros j. destruct (decide (i = j)) as [<-|Hne].
  - by rewrite list_lookup_alter_eq, Hi.
  - by rewrite list_lookup_alter_ne.
Qed.

Lemma inv_enable w cfgs e i :
  inv w cfgs → inv (step grow w (CallEnable e i)) (list_step defaultlogf cfgs (CallEnable e i)).
Proof.
  intros Hinv. pose proof Hinv as (H0 & H1 & Ha & Hd & Hlen & Hrel & Hown). simpl.
  destruct (profileTypes w !! i) as [s|] eqn:Hsi.
  2: { rewrite alter_absent; [done|].
       apply lookup_ge_None. apply lookup_ge_None in Hsi. lia. }
  destruct (cfgs !! i) as [c|] eqn:Hc.
  2: { apply lookup_lt_Some in Hsi. apply lookup_ge_None in Hc. lia. }
  destruct (Hrel i s c Hsi Hc) as (Hcont & Hle & a & Harr & Hlena).
  unfold append. destruct (decide (s_len s < s_cap s)%nat) as [Hspare|Hfull].
  - (* the tag is written in place *)
    destruct (Hown i s Hsi Hspare) as [Hge Huniq].
    unfold inv; simpl. split_and!; try done.
    + rewrite list_lookup_alter_ne by lia. done.
    + rewrite list_lookup_alter_ne by lia. done.
    + by rewrite length_insert, length_alter.
    + intros j s2 c2 Hs2 Hc2. destruct (decide (i = j)) as [<-|Hne].
      * apply list_lookup_insert_Some in Hs2 as [(_ & <- & _)|[? _]]; [|done].
        rewrite list_lookup_alter_eq, Hc in Hc2. simplify_eq/=.
        rewrite enable_op_profileTypes, <- Hcont. unfold contents; simpl.
        rewrite list_lookup_alter_eq, Harr. simpl. split_and!.
        -- rewrite (take_S_r _ _ (tag e)) by (apply list_lookup_insert_eq; lia).
           by rewrite take_insert_ge.
        -- lia.
        -- exists (<[s_len s := tag e]> a). split; [done|]. by rewrite length_insert.
      * rewrite list_lookup_insert_ne in Hs2 by done.
        rewrite list_lookup_alter_ne in Hc2 by done.
        destruct (Hrel j s2 c2 Hs2 Hc2) as (Hcont2 & Hle2 & a2 & Harr2 & Hlen2).
        assert (s_array s ≠ s_array s2) as Hother.
        { intros Heq. symmetry in Heq. by apply (Huniq j s2 Hs2) in Heq. }
        unfold contents. rewrite list_lookup_alter_ne by done.
        split_and!; [done|done|]. by exists a2.
    + intros j s2 Hs2 Hspare2. destruct (decide (i = j)) as [<-|Hne].
      * apply list_lookup_insert_Some in Hs2 as [(_ & <- & _)|[? _]]; [|done].
        simpl. split; [done|]. intros k s3 Hs3 Heq.
        destruct (decide (i = k)) as [|Hne']; [done|].
        rewrite list_lookup_insert_ne in Hs3 by done. simpl in Heq. eauto.
      * rewrite list_lookup_insert_ne in Hs2 by done.
        destruct (Hown j s2 Hs2 Hspare2) as [Hge2 Huniq2]. split; [done|].
        intros k s3 Hs3 Heq. destruct (decide (i = k)) as [<-|Hne'].
        -- apply list_lookup_insert_Some in Hs3 as [(_ & <- & _)|[? _]]; [|done].
           simpl in Heq. eauto.
        -- rewrite list_lookup_insert_ne in Hs3 by done. eauto.
  - (* the elements move to a new array *)
    assert (s_len s = s_cap s) as Hlc by lia.
    assert (length (contents (arrays w) s) = s_len s) as Hclen.
    { unfold contents. rewrite Harr. simpl. rewrite length_take. lia. }
    pose proof (grow_fits (s_cap s) (S (s_len s))) as Hgrow.
    assert (2 ≤ length (arrays w))%nat as Hsize.
    { apply lookup_lt_Some in H1. lia. }
    unfold inv; simpl. split_and!; try done.
    + by apply lookup_app_l_Some.
    + by apply lookup_app_l_Some.
    + by rewrite length_insert, length_alter.
    + intros j s2 c2 Hs2 Hc2. destruct (decide (i = j)) as [<-|Hne].
      * apply list_lookup_insert_Some in Hs2 as [(_ & <- & _)|[? _]]; [|done].
        rewrite list_lookup_alter_eq, Hc in Hc2. simplify_eq/=.
        rewrite enable_op_profileTypes, <- Hcont. unfold contents at 1; simpl.
        rewrite list_lookup_middle by done. simpl. split_and!.
        -- rewrite take_app_ge by lia.
           by replace (S (s_len s) - length (contents (arrays w) s))%nat with 1%nat by lia.
        -- lia.
        -- eexists. split; [done|]. rewrite length_app. simpl.
           rewrite length_replicate. lia.
      * rewrite list_lookup_insert_ne in Hs2 by done.
        rewrite list_lookup_alter_ne in Hc2 by done.
        destruct (Hrel j s2 c2 Hs2 Hc2) as (Hcont2 & Hle2 & a2 & Harr2 & Hlen2).
        unfold contents. rewrite (lookup_app_l_Some _ _ _ _ Harr2).
        unfold contents in Hcont2. rewrite Harr2 in Hcont2.
        split_and!; [done|done|]. by exists a2.
    + intros j s2 Hs2 Hspare2. destruct (decide (i = j)) as [<-|Hne].
      * apply list_lookup_insert_Some in Hs2 as [(_ & <- & _)|[? _]]; [|done].
        simpl. split; [done|]. intros k s3 Hs3 Heq.
        destruct (decide (i = k)) as [|Hne']; [done|].
        rewrite list_lookup_insert_ne in Hs3 by done. simpl in Heq.
        assert (is_Some (cfgs !! k)) as [c3 Hc3].
        { apply lookup_lt_is_Some. apply lookup_lt_Some in Hs3. lia. }
        destruct (Hrel k s3 c3 Hs3 Hc3) as (_ & _ & a3 & Harr3 & _).
        apply lookup_lt_Some in Harr3. lia.
      * rewrite list_lookup_insert_ne in Hs2 by done.
        destruct (Hown j s2 Hs2 Hspare2) as [Hge2 Huniq2]. split; [done|].
        intros k s3 Hs3 Heq. destruct (decide (i = k)) as [<-|Hne'].
        -- apply list_lookup_insert_Some in Hs3 as [(_ & <- & _)|[? _]]; [|done].
           simpl in Heq.
           assert (is_Some (cfgs !! j)) as [c2 Hc2].
           { apply lookup_lt_is_Some. apply lookup_lt_Some in Hs2. lia. }
           destruct (Hrel j s2 c2 Hs2 Hc2) as (_ & _ & a2 & Harr2 & _).
           apply lookup_lt_Some in Harr2. lia.
        -- rewrite list_lookup_insert_ne in Hs3 by done. eauto.
Qed.

Lemma inv_step w cfgs c :
  inv w cfgs → inv (step grow w c) (list_step defaultlogf cfgs c).
Proof.
  destruct c; [apply inv_new | apply inv_enable | apply inv_enable_all].
Qed.

Lemma inv_steps cs w cfgs :
  inv w cfgs →
  inv (fold_left (step grow) cs w) (fold_left (list_step defaultlogf) cs cfgs).
Proof.
  revert w cfgs. induction cs as [|c cs IH]; intros w cfgs Hinv; simpl; [done|].
  by apply IH, inv_step.
Qed.

(** X12.  The store view and the list view agree after every sequence of
    calls on any number of configurations, provided the runtime's new
    array is large enough for the appended slice: the elements of every
    [profileTypes] header are the list module [Profiler] computes, and
    the two package-level slices still hold their literals, so no call
    ever writes into them or into another configuration's elements. *)
Theorem lists_sound cs :
  let w := run grow cs in
  let cfgs : list (Profiler.Config CancelFunc logfn MemStats) := list_run defaultlogf cs in
  length (profileTypes w) = length cfgs
  ∧ (∀ i s c, profileTypes w !! i = Some s → cfgs !! i = Some c →
       contents (arrays w) s = Profiler.profileTypes c)
  ∧ contents (arrays w) (allProfiles w) = Profiler.allProfiles
  ∧ contents (arrays w) (defaultProfiles w) = Profiler.defaultProfiles.
Proof.
  intros w cfgs.
  destruct (inv_steps cs init [] inv_init) as (H0 & H1 & Ha & Hd & Hlen & Hrel & _).
  fold (run grow cs) in *. fold w in H0, H1, Ha, Hd, Hlen, Hrel.
  change (fold_left (list_step defaultlogf) cs []) with cfgs in Hlen, Hrel.
  split_and!; [done| |..].
  - intros i s c Hs Hc. by destruct (Hrel i s c Hs Hc).
  - rewrite Ha. unfold contents. simpl. by rewrite H0.
  - rewrite Hd. unfold contents. simpl. by rewrite H1.
Qed.

End SliceHeapFacts.

Lemma grow_double_fits old need : (need ≤ SliceHeap.grow_double old need)%nat.
Proof. unfold SliceHeap.grow_double. lia. Qed.

(** With the doubling policy: two configurations, one moved off the
    default literal and then extended in place, the other moved off the
    catalog; neither sees the other's tags and both literals are intact. *)
Example two_configs_do_not_interfere :
  let w := SliceHeap.run SliceHeap.grow_double
             [SliceHeap.CallNew "a"; SliceHeap.CallNew "b";
              SliceHeap.CallEnable SliceHeap.Block 0;
              SliceHeap.CallEnable SliceHeap.Mutex 0;
              SliceHeap.CallEnableAll 1;
              SliceHeap.CallEnable SliceHeap.GoRoutine 1] in
  SliceHeap.contents (SliceHeap.arrays w) <$> SliceHeap.profileTypes w
  = [ ["heap"; "cpu"; "block"; "mutex"];
      ["threadcreate"; "block"; "mutex"; "goroutine"; "allocs"; "heap"; "cpu"; "goroutine"] ]
  ∧ SliceHeap.contents (SliceHeap.arrays w) (SliceHeap.allProfiles w) = Profiler.allProfiles
  ∧ SliceHeap.contents (SliceHeap.arrays w) (SliceHeap.defaultProfiles w)
    = Profiler.defaultProfiles.
Proof. split_and!; reflexivity. Qed.

(** ** Concrete runs *)

(** C1, the claim as stated fails: the fresh configuration of the service
    api has the documented interval, duration, profile set, retention age
    and target address, but its output mode is not the file one. *)
Lemma C1_default_mode_not_file :
  ¬ (Profiler.interval Examples.cfg_api = 60 * Go.Second
     ∧ Profiler.duration Examples.cfg_api = 10 * Go.Second
     ∧ profile_set (Profiler.profileTypes Examples.cfg_api) = {[ "cpu"; "heap" ]}
     ∧ Profiler.outputMode Examples.cfg_api = toFile
     ∧ Profiler.DefaultProfilesAge = 900 * Go.Second
     ∧ Profiler.targetURL Examples.cfg_api = "http://127.0.0.1:8586/profile")
  ∧ ¬ (Part000.outputMode Examples.part_api = toFile).
Proof. split; [intros (_ & _ & _ & H & _) | intros H]; discriminate H. Qed.

(** C3, the claim as stated fails: the empty service name, a zero interval
    and a negative CPU duration are all stored, and the configurations
    that hold them do not meet the constraints on the settings. *)
Lemma C3_invalid_settings_stored :
  Profiler.service (Profiler.NewProfilerConfig (CancelFunc := unit) (MemStats := unit) tt "") = ""
  ∧ settings_valid (Profiler.NewProfilerConfig (CancelFunc := unit) (MemStats := unit) tt "") = false
  ∧ Profiler.interval (Profiler.SetInterval 0 Examples.cfg_api) = 0
  ∧ settings_valid (Profiler.SetInterval 0 Examples.cfg_api) = false
  ∧ Profiler.duration (Profiler.SetCPUProfileDuration (-5) Examples.cfg_api) = -5000000000
  ∧ settings_valid (Profiler.SetCPUProfileDuration (-5) Examples.cfg_api) = false
  ∧ settings_valid Examples.cfg_api = true.
Proof. split_and!; reflexivity. Qed.

Lemma C3_no_validation_witness :
  (-9223372036 ≤ -5 ≤ 9223372036)
  ∧ Profiler.interval (Profiler.SetInterval (-5) Examples.cfg_api) = -5 * Go.Second
  ∧ ¬ (0 < Profiler.interval (Profiler.SetInterval (-5) Examples.cfg_api)).
Proof.
  assert (Hr : -9223372036 ≤ -5 ≤ 9223372036) by lia.
  destruct (C3_no_validation (pprofData := unit) tt "" (-5)
              Examples.cfg_api Examples.part_api) as (_ & _ & H).
  destruct (H Hr) as (Hi & _ & _ & _ & Hpos & _).
  split; [exact Hr|]. split; [exact Hi|]. intros Hlt. apply Hpos in Hlt. lia.
Defined.

Lemma C6_output_channel_witness :
  (length (Examples.full_round 1700000000) ≤ 8)%nat
  ∧ Go.chan_send_all (Examples.full_round 1700000000)
      (Profiler.outProfile Examples.cfg_api)
    = Some (Go.Chan 8 (Examples.full_round 1700000000)).
Proof.
  assert (Hn : (length (Examples.full_round 1700000000) ≤ 8)%nat) by (simpl; lia).
  destruct (C6_output_channel (CancelFunc := unit) (MemStats := unit) (pprofData := unit)
              tt "api" (Examples.full_round 1700000000)
              (Examples.artifact "cpu" 1700000060) [] tt)
    as ((_ & _ & _ & H & _) & _).
  split; [exact Hn|]. exact (proj1 (H Hn)).
Defined.




(** * Further properties of the builder *)

(** ** Seconds that do not fit *)

Lemma wrap64_congr z : ∃ k, Go.wrap64 z = z + k * 2 ^ 64.
Proof.
  exists (- ((z + 2 ^ 63) `div` 2 ^ 64)). unfold Go.wrap64.
  rewrite Z.mod_eq by lia. lia.
Qed.

Lemma seconds_stored i :
  - 2 ^ 63 ≤ i < 2 ^ 63 →
  Go.int64_mul (Go.Duration_of_int i) Go.Second = Go.wrap64 (i * 1000000000).
Proof.
  intros Hi. unfold Go.int64_mul, Go.Duration_of_int.
  by rewrite (wrap64_id i Hi), Second_ns.
Qed.

Lemma seconds_exact_range i :
  - 2 ^ 63 ≤ i < 2 ^ 63 →
  Go.int64_mul (Go.Duration_of_int i) Go.Second = i * Go.Second
  ↔ -9223372036 ≤ i ≤ 9223372036.
Proof.
  intros Hi. split.
  - rewrite (seconds_stored i Hi), Second_ns. intros Heq.
    pose proof (wrap64_range (i * 1000000000)) as Hr. rewrite Heq in Hr. lia.
  - intros Hs. rewrite Second_ns. by apply seconds_exact.
Qed.

Section Seconds.
Context {CancelFunc logfn MemStats pprofData : Type}.

(** X1.  For an [int] argument, [SetInterval] and [SetCPUProfileDuration]
    each store a value of the [int64] range that differs from [i] seconds
    by a multiple of [2^64] nanoseconds, and it is [i] seconds exactly
    when [-9223372036 <= i <= 9223372036]: beyond that the product wraps.
    This holds of both setters in both variants, which store the same
    value. *)
Theorem X1_seconds_exact_iff (i : Z)
    (a : Profiler.Config CancelFunc logfn MemStats)
    (b : Part000.Config CancelFunc logfn pprofData) :
  - 2 ^ 63 ≤ i < 2 ^ 63 →
  (Profiler.interval (Profiler.SetInterval i a) = i * Go.Second
   ↔ -9223372036 ≤ i ≤ 9223372036)
  ∧ (Profiler.duration (Profiler.SetCPUProfileDuration i a) = i * Go.Second
     ↔ -9223372036 ≤ i ≤ 9223372036)
  ∧ (Part000.interval (Part000.SetInterval i b) = i * Go.Second
     ↔ -9223372036 ≤ i ≤ 9223372036)
  ∧ (Part000.duration (Part000.SetCPUProfileDuration i b) = i * Go.Second
     ↔ -9223372036 ≤ i ≤ 9223372036)
  ∧ - 2 ^ 63 ≤ Profiler.interval (Profiler.SetInterval i a) < 2 ^ 63
  ∧ (∃ k, Profiler.interval (Profiler.SetInterval i a) = i * Go.Second + k * 2 ^ 64)
  ∧ Part000.interval (Part000.SetInterval i b)
    = Profiler.interval (Profiler.SetInterval i a)
  ∧ Part000.duration (Part000.SetCPUProfileDuration i b)
    = Profiler.duration (Profiler.SetCPUProfileDuration i a)
  ∧ - 2 ^ 63 ≤ Profiler.duration (Profiler.SetCPUProfileDuration i a) < 2 ^ 63
  ∧ (∃ k, Profiler.duration (Profiler.SetCPUProfileDuration i a)
          = i * Go.Second + k * 2 ^ 64)
  ∧ - 2 ^ 63 ≤ Part000.interval (Part000.SetInterval i b) < 2 ^ 63
  ∧ (∃ k, Part000.interval (Part000.SetInterval i b) = i * Go.Second + k * 2 ^ 64)
  ∧ - 2 ^ 63 ≤ Part000.duration (Part000.SetCPUProfileDuration i b) < 2 ^ 63
  ∧ (∃ k, Part000.duration (Part000.SetCPUProfileDuration i b)
          = i * Go.Second + k * 2 ^ 64).
Proof.
  intros Hi.
  cbn [Profiler.interval Profiler.SetInterval Profiler.duration
       Profiler.SetCPUProfileDuration Part000.interval Part000.SetInterval
       Part000.duration Part000.SetCPUProfileDuration].
  pose proof (wrap64_range (Go.Duration_of_int i * Go.Second)) as Hrange.
  assert (∃ k, Go.int64_mul (Go.Duration_of_int i) Go.Second
               = i * Go.Second + k * 2 ^ 64) as Hcongr.
  { rewrite (seconds_stored i Hi), Second_ns. apply wrap64_congr. }
  split_and!; first [by apply seconds_exact_range | reflexivity
                    | exact Hcongr | apply Hrange].
Qed.

End Seconds.

(** ** What a sequence of calls leaves behind *)

Section CallSequences.
Import Calls.
Context {CancelFunc logfn MemStats pprofData : Type} (defaultlogf : logfn).
Implicit Types (o : op logfn) (os : list (op logfn))
  (c : Profiler.Config CancelFunc logfn MemStats)
  (b : Part000.Config CancelFunc logfn pprofData).

Abbreviation New := (Profiler.NewProfilerConfig (CancelFunc := CancelFunc)
                       (MemStats := MemStats) defaultlogf).
Abbreviation New000 := (Part000.NewProfilerConfig (CancelFunc := CancelFunc)
                          (pprofData := pprofData) defaultlogf).

Lemma calls_snoc os o c : calls (os ++ [o]) c = call o (calls os c).
Proof. unfold calls. by rewrite fold_left_app. Qed.

Lemma calls000_snoc os o b : calls000 (os ++ [o]) b = call000 o (calls000 os b).
Proof. unfold calls000. by rewrite fold_left_app. Qed.

(** X2.  Last write wins: after any sequence of calls, [interval],
    [duration], [targetURL] and [logf] hold what the last call that
    assigns the field stored, and the value they had before when no call
    of the sequence assigns it. *)
Theorem X2_last_write_wins os c :
  Profiler.interval (calls os c)
  = default (Profiler.interval c) (last (omap interval_set os))
  ∧ Profiler.duration (calls os c)
    = default (Profiler.duration c) (last (omap duration_set os))
  ∧ Profiler.targetURL (calls os c)
    = default (Profiler.targetURL c) (last (omap url_set os))
  ∧ Profiler.logf (calls os c)
    = default (Profiler.logf c) (last (omap logger_set os)).
Proof.
  induction os as [|o os IH] using rev_ind; [done|].
  destruct IH as (Hi & Hd & Hu & Hl).
  rewrite calls_snoc, !omap_app.
  destruct o; simpl; rewrite ?app_nil_r, ?last_snoc; simpl; done.
Qed.

(** X3.  The two flags only ever go up: after any sequence of calls
    [dumpToFile] is true exactly when it was true before or the sequence
    calls [WriteProfileToFile], and [customTarget] is true exactly when it
    was true before or the sequence calls [SetTargetURL]; no call clears
    either. *)
Theorem X3_flags_sticky os c :
  Profiler.dumpToFile (calls os c)
  = Profiler.dumpToFile c || existsb is_write_to_file os
  ∧ Profiler.customTarget (calls os c)
    = Profiler.customTarget c || existsb is_set_target os.
Proof.
  induction os as [|o os [IHd IHc]] using rev_ind.
  - simpl. by rewrite !orb_false_r.
  - rewrite calls_snoc, !existsb_app.
    destruct o; simpl; rewrite ?orb_false_r, ?orb_true_r; done.
Qed.

(** X4.  No call of the builder touches the service name, the cancel
    function or the two channels: after any sequence of calls on a fresh
    configuration the service is the one given at construction, the cancel
    function is nil, the profile channel is empty with capacity 8 and the
    metrics channel is empty with capacity 1. *)
Theorem X4_construction_fields_kept os c (s : string) :
  (Profiler.service (calls os c) = Profiler.service c
   ∧ Profiler.cancel (calls os c) = Profiler.cancel c
   ∧ Profiler.outProfile (calls os c) = Profiler.outProfile c
   ∧ Profiler.outMetrics (calls os c) = Profiler.outMetrics c)
  ∧
  (Profiler.service (calls os (New s)) = s
   ∧ Profiler.cancel (calls os (New s)) = None
   ∧ Profiler.outProfile (calls os (New s)) = Go.Chan 8 []
   ∧ Profiler.outMetrics (calls os (New s)) = Go.Chan 1 []).
Proof.
  assert (∀ c', Profiler.service (calls os c') = Profiler.service c'
                ∧ Profiler.cancel (calls os c') = Profiler.cancel c'
                ∧ Profiler.outProfile (calls os c') = Profiler.outProfile c'
                ∧ Profiler.outMetrics (calls os c') = Profiler.outMetrics c') as Hkept.
  { intros c'. induction os as [|o os IH] using rev_ind; [done|].
    rewrite calls_snoc. destruct IH as (Hs & Hc & Hp & Hm).
    destruct o; simpl; done. }
  split; [apply Hkept|].
  destruct (Hkept (New s)) as (-> & -> & -> & ->).
  done.
Qed.

Lemma profileTypes_appended os c :
  existsb is_enable_all os = false →
  Profiler.profileTypes (calls os c) = Profiler.profileTypes c ++ omap enable_tag os.
Proof.
  induction os as [|o os IH] using rev_ind; intros Hall.
  - simpl. by rewrite app_nil_r.
  - rewrite existsb_app in Hall. apply orb_false_elim in Hall as [Hos Ho].
    rewrite calls_snoc, omap_app. specialize (IH Hos).
    destruct o; simpl in *; rewrite ?app_nil_r; try done;
      by rewrite IH, <- app_assoc.
Qed.

(** X5.  The slice of enabled types after a sequence of calls: without a
    call of [EnableAllProfiles] it is the slice from before followed by
    the tags of the single enable calls, in the order of the calls and
    with every repetition; a call of [EnableAllProfiles] discards
    whatever was enabled before it, leaving the catalog followed by the
    tags of the enable calls made after it. *)
Theorem X5_profile_types_after_calls os os' c :
  existsb is_enable_all os' = false →
  Profiler.profileTypes (calls os' c) = Profiler.profileTypes c ++ omap enable_tag os'
  ∧ Profiler.profileTypes (calls (os ++ OpEnableAllProfiles :: os') c)
    = Profiler.allProfiles ++ omap enable_tag os'
  ∧ length (Profiler.profileTypes (calls (os ++ OpEnableAllProfiles :: os') c))
    = (7 + length (omap enable_tag os'))%nat.
Proof.
  intros Hall. split; [by apply profileTypes_appended|].
  assert (Profiler.profileTypes (calls (os ++ OpEnableAllProfiles :: os') c)
          = Profiler.allProfiles ++ omap enable_tag os') as Heq.
  { unfold calls. rewrite fold_left_app. simpl.
    fold (calls os c).
    fold (calls os' (Profiler.EnableAllProfiles (calls os c))).
    by rewrite profileTypes_appended. }
  split; [done|]. rewrite Heq, length_app. done.
Qed.

Lemma enabled_bounds_step (S : gset string) (all : bool) (t : string) :
  t ∈ Profiler.allProfiles → t ≠ "allocs" →
  "cpu" ∈ S ∧ "heap" ∈ S ∧ S ⊆ profile_set Profiler.allProfiles
  ∧ ("allocs" ∈ S ↔ all = true) →
  "cpu" ∈ S ∪ {[ t ]} ∧ "heap" ∈ S ∪ {[ t ]}
  ∧ S ∪ {[ t ]} ⊆ profile_set Profiler.allProfiles
  ∧ ("allocs" ∈ S ∪ {[ t ]} ↔ all = true).
Proof.
  intros Ht Hne (Hc & Hh & Hs & Ha). split_and!.
  - by apply elem_of_union_l.
  - by apply elem_of_union_l.
  - apply union_subseteq. split; [done|].
    apply singleton_subseteq_l. by apply elem_of_list_to_set.
  - rewrite elem_of_union, elem_of_singleton. split.
    + intros [H|H]; [by apply Ha | congruence].
    + intros H. left. by apply Ha.
Qed.

(** X6.  On a configuration built from [NewProfilerConfig] by any
    sequence of calls, cpu and heap are always enabled (no call disables a
    type), every enabled type belongs to the catalog, and allocs is
    enabled exactly when the sequence calls [EnableAllProfiles]: there is
    no call that enables allocs alone. *)
Theorem X6_enabled_set_bounds os (s : string) :
  "cpu" ∈ profile_set (Profiler.profileTypes (calls os (New s)))
  ∧ "heap" ∈ profile_set (Profiler.profileTypes (calls os (New s)))
  ∧ profile_set (Profiler.profileTypes (calls os (New s)))
    ⊆ {[ "cpu"; "heap"; "block"; "mutex"; "goroutine"; "allocs"; "threadcreate" ]}
  ∧ ("allocs" ∈ profile_set (Profiler.profileTypes (calls os (New s)))
     ↔ existsb is_enable_all os = true).
Proof.
  rewrite <- Profiler_catalog_set.
  induction os as [|o os IH] using rev_ind.
  - cbn [calls fold_left Profiler.profileTypes Profiler.NewProfilerConfig existsb].
    unfold profile_set at 1 2 3 5. unfold Profiler.defaultProfiles.
    rewrite !elem_of_list_to_set. split_and!.
    + repeat constructor.
    + repeat constructor.
    + intros t Ht. apply elem_of_list_to_set in Ht. apply elem_of_list_to_set.
      unfold Profiler.allProfiles.
      apply elem_of_cons in Ht as [->|Ht]; [repeat constructor|].
      apply elem_of_cons in Ht as [->|Ht]; [repeat constructor|].
      by apply elem_of_nil in Ht.
    + split; [|done]. intros Ht.
      apply elem_of_cons in Ht as [Ht|Ht]; [done|].
      apply elem_of_cons in Ht as [Ht|Ht]; [done|].
      by apply elem_of_nil in Ht.
  - rewrite calls_snoc, existsb_app.
    cbn [existsb]. rewrite orb_false_r.
    destruct o; cbn [call is_enable_all]; rewrite ?orb_false_r, ?orb_true_r;
      try exact IH.
    + cbn [Profiler.EnableBlockProfile Profiler.assign_profileTypes Profiler.profileTypes].
      rewrite profile_set_snoc.
      apply enabled_bounds_step; [unfold Profiler.allProfiles; repeat constructor|done|done].
    + cbn [Profiler.EnableMutexProfile Profiler.assign_profileTypes Profiler.profileTypes].
      rewrite profile_set_snoc.
      apply enabled_bounds_step; [unfold Profiler.allProfiles; repeat constructor|done|done].
    + cbn [Profiler.EnableGoRoutineProfile Profiler.assign_profileTypes Profiler.profileTypes].
      rewrite profile_set_snoc.
      apply enabled_bounds_step; [unfold Profiler.allProfiles; repeat constructor|done|done].
    + cbn [Profiler.EnableThreadCreateProfile Profiler.assign_profileTypes Profiler.profileTypes].
      rewrite profile_set_snoc.
      apply enabled_bounds_step; [unfold Profiler.allProfiles; repeat constructor|done|done].
    + cbn [Profiler.EnableAllProfiles Profiler.assign_profileTypes Profiler.profileTypes].
      unfold profile_set. rewrite !elem_of_list_to_set. unfold Profiler.allProfiles.
      split_and!; [repeat constructor|repeat constructor|done|].
      split; [done|]. intros _. repeat constructor.
Qed.

(** X7.  On a configuration built from [NewProfilerConfig] by any
    sequence of calls, a target that was never marked custom is the
    default agent URL, and file output is on exactly when
    [WriteProfileToFile] was called. *)
Theorem X7_built_target_and_mode os (s : string) :
  (Profiler.customTarget (calls os (New s)) = false →
   Profiler.targetURL (calls os (New s)) = Profiler.DefaultAgentURL)
  ∧ (Profiler.outputMode (calls os (New s)) = toFile
     ↔ existsb is_write_to_file os = true).
Proof.
  induction os as [|o os [IHt IHm]] using rev_ind; [done|].
  rewrite calls_snoc, existsb_app.
  destruct o; simpl; rewrite ?orb_false_r, ?orb_true_r; try done.
Qed.

Lemma catalogs_permutation : Profiler.allProfiles ≡ₚ Part000.allProfiles.
Proof.
  apply NoDup_Permutation;
    [apply Profiler_catalog_NoDup | apply Part000_catalog_NoDup |].
  intros t. rewrite <- !(elem_of_list_to_set (C := gset string)).
  fold (profile_set Profiler.allProfiles) (profile_set Part000.allProfiles).
  by rewrite Profiler_catalog_set, Part000_catalog_set.
Qed.

Lemma profile_set_permutation l k : l ≡ₚ k → profile_set l = profile_set k.
Proof.
  intros Hp. apply set_eq. intros t. unfold profile_set.
  rewrite !elem_of_list_to_set. by rewrite Hp.
Qed.

(** The fields the two variants share, compared. *)
Lemma variants_step o c b :
  Profiler.service c = Part000.service b
  ∧ Profiler.interval c = Part000.interval b
  ∧ Profiler.duration c = Part000.duration b
  ∧ Profiler.dumpToFile c = Part000.dumpToFile b
  ∧ Profiler.targetURL c = Part000.targetURL b
  ∧ Profiler.customTarget c = Part000.customTarget b
  ∧ Profiler.logf c = Part000.logf b
  ∧ Profiler.cancel c = Part000.cancel b
  ∧ Go.chan_cap (Profiler.outProfile c) = Go.chan_cap (Part000.out b)
  ∧ Profiler.profileTypes c ≡ₚ Part000.profileTypes b →
  Profiler.service (call o c) = Part000.service (call000 o b)
  ∧ Profiler.interval (call o c) = Part000.interval (call000 o b)
  ∧ Profiler.duration (call o c) = Part000.duration (call000 o b)
  ∧ Profiler.dumpToFile (call o c) = Part000.dumpToFile (call000 o b)
  ∧ Profiler.targetURL (call o c) = Part000.targetURL (call000 o b)
  ∧ Profiler.customTarget (call o c) = Part000.customTarget (call000 o b)
  ∧ Profiler.logf (call o c) = Part000.logf (call000 o b)
  ∧ Profiler.cancel (call o c) = Part000.cancel (call000 o b)
  ∧ Go.chan_cap (Profiler.outProfile (call o c)) = Go.chan_cap (Part000.out (call000 o b))
  ∧ Profiler.profileTypes (call o c) ≡ₚ Part000.profileTypes (call000 o b).
Proof.
  intros (Hs & Hi & Hd & Hf & Hu & Hc & Hl & Hx & Hp & Ht).
  destruct o; simpl; split_and!; try done;
    first [by apply Permutation_app_tail | apply catalogs_permutation].
Qed.

(** X8.  The two variants stay in step under every sequence of calls:
    built from the same service name by the same calls, their
    configurations have the same service, interval, CPU duration,
    file-output flag, target URL, custom-target flag, logger, cancel
    function and output-channel capacity, and their slices of enabled
    types are permutations of each other, hence equal as sets. *)
Theorem X8_variants_in_step os (s : string) :
  Profiler.service (calls os (New s)) = Part000.service (calls000 os (New000 s))
  ∧ Profiler.interval (calls os (New s)) = Part000.interval (calls000 os (New000 s))
  ∧ Profiler.duration (calls os (New s)) = Part000.duration (calls000 os (New000 s))
  ∧ Profiler.dumpToFile (calls os (New s)) = Part000.dumpToFile (calls000 os (New000 s))
  ∧ Profiler.targetURL (calls os (New s)) = Part000.targetURL (calls000 os (New000 s))
  ∧ Profiler.customTarget (calls os (New s))
    = Part000.customTarget (calls000 os (New000 s))
  ∧ Profiler.logf (calls os (New s)) = Part000.logf (calls000 os (New000 s))
  ∧ Profiler.cancel (calls os (New s)) = Part000.cancel (calls000 os (New000 s))
  ∧ Go.chan_cap (Profiler.outProfile (calls os (New s)))
    = Go.chan_cap (Part000.out (calls000 os (New000 s)))
  ∧ Profiler.profileTypes (calls os (New s))
    ≡ₚ Part000.profileTypes (calls000 os (New000 s))
  ∧ profile_set (Profiler.profileTypes (calls os (New s)))
    = profile_set (Part000.profileTypes (calls000 os (New000 s))).
Proof.
  assert (Profiler.service (calls os (New s)) = Part000.service (calls000 os (New000 s))
  ∧ Profiler.interval (calls os (New s)) = Part000.interval (calls000 os (New000 s))
  ∧ Profiler.duration (calls os (New s)) = Part000.duration (calls000 os (New000 s))
  ∧ Profiler.dumpToFile (calls os (New s)) = Part000.dumpToFile (calls000 os (New000 s))
  ∧ Profiler.targetURL (calls os (New s)) = Part000.targetURL (calls000 os (New000 s))
  ∧ Profiler.customTarget (calls os (New s))
    = Part000.customTarget (calls000 os (New000 s))
  ∧ Profiler.logf (calls os (New s)) = Part000.logf (calls000 os (New000 s))
  ∧ Profiler.cancel (calls os (New s)) = Part000.cancel (calls000 os (New000 s))
  ∧ Go.chan_cap (Profiler.outProfile (calls os (New s)))
    = Go.chan_cap (Part000.out (calls000 os (New000 s)))
  ∧ Profiler.profileTypes (calls os (New s))
    ≡ₚ Part000.profileTypes (calls000 os (New000 s))) as H.
  { induction os as [|o os IH] using rev_ind.
    - simpl. split_and!; try done. apply Permutation_swap.
    - rewrite calls_snoc, calls000_snoc. by apply variants_step. }
  destruct H as (Hs & Hi & Hd & Hf & Hu & Hc & Hl & Hx & Hp & Ht).
  split_and!; try done. by apply profile_set_permutation.
Qed.

Lemma NoDup_snoc_iff (l : list string) t : NoDup (l ++ [t]) ↔ NoDup l ∧ t ∉ l.
Proof.
  rewrite NoDup_app. split.
  - intros (Hl & Hnot & _). split; [done|]. intros Hin.
    apply (Hnot t Hin). constructor.
  - intros [Hl Hnot]. split_and!; [done| |apply NoDup_singleton].
    intros x Hx Hxt. apply list_elem_of_singleton in Hxt. by subst.
Qed.

(** X9.  An enable call leaves the slice of enabled types free of
    duplicates exactly when it was free of them and the type was not yet
    enabled; so after [EnableAllProfiles] each of the four enable calls
    leaves a slice that holds its type twice. *)
Theorem X9_enable_duplicates c b :
  (NoDup (Profiler.profileTypes (Profiler.EnableBlockProfile c))
   ↔ NoDup (Profiler.profileTypes c) ∧ "block" ∉ Profiler.profileTypes c)
  ∧ (NoDup (Profiler.profileTypes (Profiler.EnableMutexProfile c))
     ↔ NoDup (Profiler.profileTypes c) ∧ "mutex" ∉ Profiler.profileTypes c)
  ∧ (NoDup (Profiler.profileTypes (Profiler.EnableGoRoutineProfile c))
     ↔ NoDup (Profiler.profileTypes c) ∧ "goroutine" ∉ Profiler.profileTypes c)
  ∧ (NoDup (Profiler.profileTypes (Profiler.EnableThreadCreateProfile c))
     ↔ NoDup (Profiler.profileTypes c) ∧ "threadcreate" ∉ Profiler.profileTypes c)
  ∧ (NoDup (Part000.profileTypes (Part000.EnableBlockProfile b))
     ↔ NoDup (Part000.profileTypes b) ∧ "block" ∉ Part000.profileTypes b)
  ∧ (NoDup (Part000.profileTypes (Part000.EnableMutexProfile b))
     ↔ NoDup (Part000.profileTypes b) ∧ "mutex" ∉ Part000.profileTypes b)
  ∧ (NoDup (Part000.profileTypes (Part000.EnableGoRoutineProfile b))
     ↔ NoDup (Part000.profileTypes b) ∧ "goroutine" ∉ Part000.profileTypes b)
  ∧ (NoDup (Part000.profileTypes (Part000.EnableThreadCreateProfile b))
     ↔ NoDup (Part000.profileTypes b) ∧ "threadcreate" ∉ Part000.profileTypes b)
  ∧ ¬ NoDup (Profiler.profileTypes
               (Profiler.EnableBlockProfile (Profiler.EnableAllProfiles c)))
  ∧ ¬ NoDup (Profiler.profileTypes
               (Profiler.EnableMutexProfile (Profiler.EnableAllProfiles c)))
  ∧ ¬ NoDup (Profiler.profileTypes
               (Profiler.EnableGoRoutineProfile (Profiler.EnableAllProfiles c)))
  ∧ ¬ NoDup (Profiler.profileTypes
               (Profiler.EnableThreadCreateProfile (Profiler.EnableAllProfiles c))).
Proof.
  split_and!; try apply NoDup_snoc_iff;
    (intros [_ Hnot]%NoDup_snoc_iff; apply Hnot;
     cbn [Profiler.profileTypes Profiler.EnableAllProfiles Profiler.assign_profileTypes];
     unfold Profiler.allProfiles; repeat constructor).
Qed.

(** X10.  Calls that assign different fields can be made in either order:
    the two resulting configurations are equal. *)
Theorem X10_calls_commute (o1 o2 : op logfn) c :
  field_of o1 ≠ field_of o2 →
  call o1 (call o2 c) = call o2 (call o1 c).
Proof. destruct o1, o2; simpl; intros Hne; done. Qed.

Lemma tag_inj e1 e2 : SliceHeap.tag e1 = SliceHeap.tag e2 → e1 = e2.
Proof. destruct e1, e2; simpl; intros H; first [reflexivity | discriminate H]. Qed.

(** X11.  Two different enable calls made in the two possible orders
    enable the same set of types but never leave the same slice: the
    order of the tags is the order of the calls. *)
Theorem X11_enable_order (e1 e2 : SliceHeap.enable) c :
  e1 ≠ e2 →
  Profiler.profileTypes (SliceHeap.enable_op e1 (SliceHeap.enable_op e2 c))
  ≠ Profiler.profileTypes (SliceHeap.enable_op e2 (SliceHeap.enable_op e1 c))
  ∧ profile_set (Profiler.profileTypes (SliceHeap.enable_op e1 (SliceHeap.enable_op e2 c)))
    = profile_set (Profiler.profileTypes (SliceHeap.enable_op e2 (SliceHeap.enable_op e1 c))).
Proof.
  intros Hne. rewrite !enable_op_profileTypes. split.
  - intros Heq. apply app_inj_tail in Heq as [_ Heq]. by apply tag_inj in Heq.
  - rewrite !profile_set_snoc.
    by rewrite <- !(assoc_L (∪)), (comm_L (∪) {[SliceHeap.tag e2]}).
Qed.

End CallSequences.

(** ** Concrete runs of the further properties *)

Lemma X1_seconds_exact_iff_witness :
  (- 2 ^ 63 ≤ 9223372037 < 2 ^ 63)
  ∧ Profiler.interval (Profiler.SetInterval 9223372037 Examples.cfg_api)
    ≠ 9223372037 * Go.Second.
Proof.
  assert (Hr : - 2 ^ 63 ≤ 9223372037 < 2 ^ 63) by lia.
  destruct (X1_seconds_exact_iff 9223372037 Examples.cfg_api Examples.part_api Hr)
    as ([Hexact _] & _).
  split; [exact Hr|]. intros Heq. apply Hexact in Heq. lia.
Defined.

Lemma X5_profile_types_after_calls_witness :
  existsb Calls.is_enable_all
    [Calls.OpEnableBlockProfile; Calls.OpSetInterval (logfn := unit) 5;
     Calls.OpEnableBlockProfile] = false
  ∧ Profiler.profileTypes
      (Calls.calls [Calls.OpEnableMutexProfile; Calls.OpEnableAllProfiles;
                    Calls.OpEnableBlockProfile; Calls.OpSetInterval 5;
                    Calls.OpEnableBlockProfile] Examples.cfg_api)
    = ["threadcreate"; "block"; "mutex"; "goroutine"; "allocs"; "heap"; "cpu";
       "block"; "block"].
Proof.
  assert (Hall : existsb Calls.is_enable_all
                   [Calls.OpEnableBlockProfile; Calls.OpSetInterval (logfn := unit) 5;
                    Calls.OpEnableBlockProfile] = false) by reflexivity.
  destruct (X5_profile_types_after_calls [Calls.OpEnableMutexProfile]
              [Calls.OpEnableBlockProfile; Calls.OpSetInterval 5;
               Calls.OpEnableBlockProfile] Examples.cfg_api Hall) as (_ & Hcat & _).
  split; [exact Hall|]. exact Hcat.
Defined.

Lemma X7_built_target_and_mode_witness :
  Profiler.customTarget
    (Calls.calls [Calls.OpSetInterval 5; Calls.OpWriteProfileToFile] Examples.cfg_api)
  = false
  ∧ Profiler.targetURL
      (Calls.calls [Calls.OpSetInterval 5; Calls.OpWriteProfileToFile] Examples.cfg_api)
    = "http://127.0.0.1:8586/profile".
Proof.
  assert (Hc : Profiler.customTarget
                 (Calls.calls [Calls.OpSetInterval 5; Calls.OpWriteProfileToFile]
                    Examples.cfg_api) = false) by reflexivity.
  destruct (X7_built_target_and_mode (CancelFunc := unit) (MemStats := unit) tt
              [Calls.OpSetInterval 5; Calls.OpWriteProfileToFile] "api") as [Ht _].
  split; [exact Hc|]. exact (Ht Hc).
Defined.

Lemma X10_calls_commute_witness :
  Calls.field_of (Calls.OpSetInterval (logfn := unit) 5)
  ≠ Calls.field_of (Calls.OpEnableBlockProfile (logfn := unit))
  ∧ Calls.call (Calls.OpSetInterval 5) (Calls.call Calls.OpEnableBlockProfile Examples.cfg_api)
    = Calls.call Calls.OpEnableBlockProfile (Calls.call (Calls.OpSetInterval 5) Examples.cfg_api).
Proof.
  assert (Hne : Calls.field_of (Calls.OpSetInterval (logfn := unit) 5)
                ≠ Calls.field_of (Calls.OpEnableBlockProfile (logfn := unit)))
    by discriminate.
  split; [exact Hne|].
  exact (X10_calls_commute (Calls.OpSetInterval 5) Calls.OpEnableBlockProfile
           Examples.cfg_api Hne).
Defined.

Lemma X11_enable_order_witness :
  SliceHeap.Block ≠ SliceHeap.Mutex
  ∧ Profiler.profileTypes
      (SliceHeap.enable_op SliceHeap.Block (SliceHeap.enable_op SliceHeap.Mutex Examples.cfg_api))
    ≠ Profiler.profileTypes
        (SliceHeap.enable_op SliceHeap.Mutex (SliceHeap.enable_op SliceHeap.Block Examples.cfg_api)).
Proof.
  assert (Hne : SliceHeap.Block ≠ SliceHeap.Mutex) by discriminate.
  split; [exact Hne|].
  exact (proj1 (X11_enable_order SliceHeap.Block SliceHeap.Mutex Examples.cfg_api Hne)).
Defined.

Lemma lists_sound_witness :
  (∀ old need, (need ≤ SliceHeap.grow_double old need)%nat)
  ∧ SliceHeap.contents
      (SliceHeap.arrays
         (SliceHeap.run SliceHeap.grow_double
            [SliceHeap.CallNew "a"; SliceHeap.CallEnableAll 0;
             SliceHeap.CallEnable SliceHeap.Block 0; SliceHeap.CallNew "b";
             SliceHeap.CallEnableAll 1; SliceHeap.CallEnable SliceHeap.Mutex 1]))
      (SliceHeap.allProfiles
         (SliceHeap.run SliceHeap.grow_double
            [SliceHeap.CallNew "a"; SliceHeap.CallEnableAll 0;
             SliceHeap.CallEnable SliceHeap.Block 0; SliceHeap.CallNew "b";
             SliceHeap.CallEnableAll 1; SliceHeap.CallEnable SliceHeap.Mutex 1]))
    = Profiler.allProfiles.
Proof.
  split; [exact grow_double_fits|].
  exact (proj1 (proj2 (proj2
    (lists_sound (CancelFunc := unit) (MemStats := unit) tt
       SliceHeap.grow_double grow_double_fits
       [SliceHeap.CallNew "a"; SliceHeap.CallEnableAll 0;
        SliceHeap.CallEnable SliceHeap.Block 0; SliceHeap.CallNew "b";
        SliceHeap.CallEnableAll 1; SliceHeap.CallEnable SliceHeap.Mutex 1])))).
Defined.
